(** * readcsv.py: reading a .csv file into a list of namedtuples

    A shallow embedding of [notebooks/readcsv.py] and of the parts of the
    Python library it calls ([str] methods, [collections.namedtuple],
    text-mode files, [float] and [sum]), followed by the properties of
    [read_csv].

    Text is [string]; a character is a code point below 256, and the
    character classes below are Python's on that range. Results are
    [Ok] or [Raise]; code that reads from an open file threads the text
    still unread. Numbers are binary64, as in the script, with an exact
    rational companion for comparison. *)

From Stdlib Require Import Ascii String QArith Qround.
From Stdlib Require Uint63 Floats.
From stdpp Require Import base gmap strings list.

Local Open Scope string_scope.

(** ** Exceptions and results *)

Inductive value_error : Type :=
| NotIdentifier (name : string)      (* must be valid identifiers *)
| IsKeyword (name : string)          (* cannot be a keyword *)
| LeadingUnderscore (name : string)  (* cannot start with an underscore *)
| DuplicateField (name : string).    (* encountered duplicate field name *)

Inductive exn : Type :=
| FileNotFoundError (fname : string)
| ValueError (why : value_error)
| SyntaxError (name : string)        (* duplicate argument in function definition *)
| TypeError (expected given : nat)   (* __new__() called with the wrong number of arguments *)
| IndexError
| ZeroDivisionError
| AssertionError
| NotModelled.   (* no exception of Python: the input is outside what is modelled here *)

Inductive result (A : Type) : Type :=
| Ok (a : A)
| Raise (e : exn).

Arguments Ok {A} a.
Arguments Raise {A} e.

Definition bind {A B : Type} (m : result A) (k : A -> result B) : result B :=
  match m with
  | Ok a => k a
  | Raise e => Raise e
  end.

Notation "'let*' x ':=' m 'in' k" := (bind m (fun x => k))
  (at level 10, x name, m at level 100, k at level 200).

(** A list comprehension whose element expression may raise: the elements
    are built left to right and the first exception ends the loop. *)
Fixpoint comprehension {A B : Type} (f : A -> result B) (l : list A) : result (list B) :=
  match l with
  | [] => Ok []
  | x :: l' => let* y := f x in let* ys := comprehension f l' in Ok (y :: ys)
  end.

(** ** The [str] methods the script uses *)

Module Str.

Definition ord (c : ascii) : N := N_of_ascii c.

Definition between (lo hi n : N) : bool := ((lo <=? n) && (n <=? hi))%N.

(** [str.isspace] on one character: tab to carriage return, the four
    separators 0x1c-0x1f, space, NEL and the no-break space. *)
Definition isspace (c : ascii) : bool :=
  let n := ord c in
  between 9 13 n || between 28 32 n || (n =? 133)%N || (n =? 160)%N.

(** The characters that may start an identifier (XID_Start and the
    underscore) and those that may continue one (XID_Continue). *)
Definition xid_start (c : ascii) : bool :=
  let n := ord c in
  between 65 90 n || (n =? 95)%N || between 97 122 n
  || (n =? 170)%N || (n =? 181)%N || (n =? 186)%N
  || between 192 214 n || between 216 246 n || between 248 255 n.

Definition xid_continue (c : ascii) : bool :=
  let n := ord c in
  xid_start c || between 48 57 n || (n =? 183)%N.

Fixpoint forallb_string (p : ascii -> bool) (s : string) : bool :=
  match s with
  | EmptyString => true
  | String c s' => p c && forallb_string p s'
  end.

(** [s.isidentifier()] *)
Definition isidentifier (s : string) : bool :=
  match s with
  | EmptyString => false
  | String c s' => xid_start c && forallb_string xid_continue s'
  end.

(** [s.startswith(c)] for a one-character prefix. *)
Definition startswith (c : ascii) (s : string) : bool :=
  match s with
  | EmptyString => false
  | String a _ => Ascii.eqb a c
  end.

(** [s.replace(old, new)] for a one-character [old]. *)
Fixpoint replace (old : ascii) (new : string) (s : string) : string :=
  match s with
  | EmptyString => EmptyString
  | String a s' =>
      if Ascii.eqb a old then new +:+ replace old new s'
      else String a (replace old new s')
  end.

(** [s.rstrip(c)] for a one-character argument: every trailing [c] goes. *)
Fixpoint rstrip (c : ascii) (s : string) : string :=
  match s with
  | EmptyString => EmptyString
  | String a s' =>
      match rstrip c s' with
      | EmptyString => if Ascii.eqb a c then EmptyString else String a EmptyString
      | r => String a r
      end
  end.

(** [s.split(sep)] for a one-character separator: never empty, and empty
    tokens are kept. *)
Fixpoint split (sep : ascii) (s : string) : list string :=
  match s with
  | EmptyString => [EmptyString]
  | String a s' =>
      if Ascii.eqb a sep then EmptyString :: split sep s'
      else match split sep s' with
           | w :: ws => String a w :: ws
           | [] => [String a EmptyString]
           end
  end.

(** [s.split()]: the maximal runs of characters that are not white space. *)
Fixpoint split_whitespace (s : string) : list string :=
  match s with
  | EmptyString => []
  | String a s' =>
      if isspace a then split_whitespace s'
      else match s' with
           | EmptyString => [String a EmptyString]
           | String b _ =>
               if isspace b then String a EmptyString :: split_whitespace s'
               else match split_whitespace s' with
                    | w :: ws => String a w :: ws
                    | [] => [String a EmptyString]
                    end
           end
  end.

End Str.

(** [keyword.kwlist] *)
Definition kwlist : list string :=
  [ "False"; "None"; "True"; "and"; "as"; "assert"; "async"; "await";
    "break"; "class"; "continue"; "def"; "del"; "elif"; "else"; "except";
    "finally"; "for"; "from"; "global"; "if"; "import"; "in"; "is";
    "lambda"; "nonlocal"; "not"; "or"; "pass"; "raise"; "return"; "try";
    "while"; "with"; "yield" ].

Definition mem (s : string) (l : list string) : bool := existsb (String.eqb s) l.

Definition iskeyword (s : string) : bool := mem s kwlist.

(** ** [collections.namedtuple] *)

(** The two characters below 256 that identifier normalisation (NFKC)
    sends to another character below 256: the ordinal indicators. *)
Definition nfkc_char (c : ascii) : ascii :=
  if (Str.ord c =? 170)%N then "a"%char
  else if (Str.ord c =? 186)%N then "o"%char
  else c.

Fixpoint nfkc (s : string) : string :=
  match s with
  | EmptyString => EmptyString
  | String c s' => String (nfkc_char c) (nfkc s')
  end.

(** The class [namedtuple] returns: its name, its [_fields] and the
    property it stores in the class namespace under each field name,
    represented by the index that property reads. *)
Record namedtuple_class : Type := {
  typename : string;
  _fields : list string;
  getters : gmap string nat
}.

(** An instance: a tuple of text values tagged with its class. *)
Record namedtuple_obj : Type := {
  cls : namedtuple_class;
  items : list string
}.

(** First loop of [namedtuple]: every name, the type name first, must be
    an identifier and must not be a keyword. *)
Fixpoint check_names (names : list string) : result unit :=
  match names with
  | [] => Ok tt
  | name :: rest =>
      if negb (Str.isidentifier name) then Raise (ValueError (NotIdentifier name))
      else if iskeyword name then Raise (ValueError (IsKeyword name))
      else check_names rest
  end.

(** Second loop: no leading underscore, no name seen before. *)
Fixpoint check_fields (seen : list string) (names : list string) : result unit :=
  match names with
  | [] => Ok tt
  | name :: rest =>
      if Str.startswith "_" name then Raise (ValueError (LeadingUnderscore name))
      else if mem name seen then Raise (ValueError (DuplicateField name))
      else check_fields (name :: seen) rest
  end.

(** [__new__] is compiled from [lambda _cls, <fields>: ...]; the parser
    normalises the argument names and refuses a repeated one. *)
Fixpoint check_arguments (seen : list string) (names : list string) : result unit :=
  match names with
  | [] => Ok tt
  | name :: rest =>
      if mem (nfkc name) seen then Raise (SyntaxError (nfkc name))
      else check_arguments (nfkc name :: seen) rest
  end.

(** [for index, name in enumerate(field_names): class_namespace[name] = ...] *)
Fixpoint class_namespace (index : nat) (names : list string)
    (ns : gmap string nat) : gmap string nat :=
  match names with
  | [] => ns
  | name :: rest => class_namespace (S index) rest (<[name := index]> ns)
  end.

Definition namedtuple (typename : string) (field_names : string) : result namedtuple_class :=
  let field_names := Str.split_whitespace (Str.replace "," " " field_names) in
  let* _ := check_names (typename :: field_names) in
  let* _ := check_fields [] field_names in
  let* _ := check_arguments ["_cls"] field_names in
  Ok {| typename := typename;
        _fields := field_names;
        getters := class_namespace 0 field_names ∅ |}.

(** Calling the class with the tokens as positional arguments, one per
    field. *)
Definition new (Row : namedtuple_class) (args : list string) : result namedtuple_obj :=
  if (length args =? length (_fields Row))%nat
  then Ok {| cls := Row; items := args |}
  else Raise (TypeError (length (_fields Row)) (length args)).

(** [len(row)] *)
Definition len (row : namedtuple_obj) : nat := length (items row).

(** [row[i]], negative indices counting from the end. *)
Definition getitem (row : namedtuple_obj) (i : Z) : result string :=
  let n := Z.of_nat (length (items row)) in
  let j := if (i <? 0)%Z then (i + n)%Z else i in
  if (j <? 0)%Z then Raise IndexError
  else match items row !! Z.to_nat j with
       | Some v => Ok v
       | None => Raise IndexError
       end.

(** [row.name] for a field name: the property stored under that name
    reads the item at its index. The other attributes of a tuple are not
    modelled. *)
Definition getattr (row : namedtuple_obj) (name : string) : result string :=
  match getters (cls row) !! name with
  | Some index => getitem row (Z.of_nat index)
  | None => Raise NotModelled
  end.

(** ** Text files *)

Definition lf : ascii := "010"%char.
Definition cr : ascii := "013"%char.
Definition dquote : ascii := "034"%char.
Definition nl : string := String lf EmptyString.

Inductive platform : Type := Posix | Windows.

(** [os.linesep] *)
Definition linesep (p : platform) : string :=
  match p with
  | Posix => nl
  | Windows => String cr nl
  end.

(** The world the script runs in: the files by name, with the characters
    they hold on disk, and what has been printed. *)
Record world : Type := {
  os : platform;
  files : gmap string string;
  stdout : string
}.

(** Text mode with the default [newline=None]: on output each line feed
    becomes [os.linesep]; on input CR LF and a lone CR become a line feed. *)
Definition write_newlines (p : platform) (s : string) : string :=
  Str.replace lf (linesep p) s.

Fixpoint universal_newlines (s : string) : string :=
  match s with
  | EmptyString => EmptyString
  | String a s' =>
      if Ascii.eqb a cr then
        String lf
          match s' with
          | String b s'' =>
              if Ascii.eqb b lf then universal_newlines s'' else universal_newlines s'
          | EmptyString => EmptyString
          end
      else String a (universal_newlines s')
  end.

(** A file open for reading: the text not read yet. *)
Record TextIO : Type := { unread : string }.

(** Code that reads from an open file and may raise. *)
Definition io (A : Type) : Type := TextIO -> result A * TextIO.

Definition io_ret {A : Type} (a : A) : io A := fun f => (Ok a, f).

Definition io_bind {A B : Type} (m : io A) (k : A -> io B) : io B :=
  fun f =>
    match m f with
    | (Ok a, f') => k a f'
    | (Raise e, f') => (Raise e, f')
    end.

Definition lift {A : Type} (r : result A) : io A := fun f => (r, f).

Notation "'let!' x ':=' m 'in' k" := (io_bind m (fun x => k))
  (at level 10, x name, m at level 100, k at level 200).

(** The first line of [s], its line feed included, and what follows it. *)
Fixpoint take_line (s : string) : string * string :=
  match s with
  | EmptyString => (EmptyString, EmptyString)
  | String a s' =>
      if Ascii.eqb a lf then (String a EmptyString, s')
      else let '(l, r) := take_line s' in (String a l, r)
  end.

(** All the lines of [s], each with its line feed; the last one has none
    when [s] does not end with one. *)
Fixpoint splitlines (s : string) : list string :=
  match s with
  | EmptyString => []
  | String a s' =>
      if Ascii.eqb a lf then String a EmptyString :: splitlines s'
      else match splitlines s' with
           | l :: ls => String a l :: ls
           | [] => [String a EmptyString]
           end
  end.

(** [f.readline()] and [f.readlines()] *)
Definition readline : io string :=
  fun f => let '(l, r) := take_line (unread f) in (Ok l, {| unread := r |}).

Definition readlines : io (list string) :=
  fun f => (Ok (splitlines (unread f)), {| unread := EmptyString |}).

(** [open(fname, 'r')] on a file that is there or is missing; the other
    failures of [open] (a directory, no permission, bytes that are no text)
    are not modelled. *)
Definition open_r (fname : string) (w : world) : result TextIO :=
  match files w !! fname with
  | Some data => Ok {| unread := universal_newlines data |}
  | None => Raise (FileNotFoundError fname)
  end.

(** [with open(fname, 'r') as f: body]: the handle does not outlive the
    statement, whichever way the body ends. *)
Definition with_open_r {A : Type} (fname : string) (w : world) (body : io A) : result A :=
  let* f := open_r fname w in fst (body f).

(** [with open(fname, 'w') as f: f.write(text)]; every name can be
    written to. *)
Definition write_file (fname text : string) (w : world) : world :=
  {| os := os w;
     files := <[fname := write_newlines (os w) text]> (files w);
     stdout := stdout w |}.

(** [print(text)] *)
Definition print (text : string) (w : world) : world :=
  {| os := os w; files := files w; stdout := stdout w +:+ text +:+ nl |}.

(** ** The script *)

(** The tokens the list comprehension of [read_csv] takes from a line:
    double quotes replaced by nothing, [rstrip] of the line feed, [split]
    on the comma. *)
Definition words (line : string) : list string :=
  Str.split "," (Str.rstrip lf (Str.replace dquote "" line)).

(** Lines 26 and 29: the header line, and the class made from it. *)
Definition read_header : io namedtuple_class :=
  let! line := readline in
  let header := Str.replace dquote "" line in
  lift (namedtuple "Row" header).

(** Line 35: one instance of the class per remaining line. *)
Definition read_rows (Row : namedtuple_class) : io (list namedtuple_obj) :=
  let! lines := readlines in
  lift (comprehension (fun line => new Row (words line)) lines).

(** The body of the [with] statement of [read_csv]. *)
Definition read_csv_body : io (list namedtuple_obj) :=
  let! Row := read_header in
  let! rows := read_rows Row in
  io_ret rows.

Definition read_csv (fname : string) (w : world) : result (list namedtuple_obj) :=
  with_open_r fname w read_csv_body.

Definition contents : string :=
  "first_name,second_name,age,height,gender" +:+ nl +:+
  "Fred,Bloggs,59,1.95,male" +:+ nl +:+
  "Peter,Bloggs,15,1.86,male" +:+ nl +:+
  "Ann,Somebody,32,1.76,female" +:+ nl +:+
  "Ada,Lovelace,46,1.67,female" +:+ nl.

Definition create_example_csv_file (fname : string) (w : world) : world :=
  write_file fname contents w.

Definition assert (b : bool) : result unit :=
  if b then Ok tt else Raise AssertionError.

(** [data[i]] on a list, for an index that is not negative. *)
Definition list_getitem {A : Type} (l : list A) (i : nat) : result A :=
  match l !! i with
  | Some x => Ok x
  | None => Raise IndexError
  end.

Definition test_read_csv (w : world) : result unit * world :=
  let test_filename := "trivial_test_example.csv" in
  let w := create_example_csv_file test_filename w in
  let asserts :=
    let* data := read_csv test_filename w in
    let* _ := assert (length data =? 4)%nat in
    let* row := list_getitem data 0 in
    let* _ := assert (len row =? 5)%nat in
    let* age := getattr row "age" in
    let* _ := assert (String.eqb age "59") in
    let* third := getitem row 2 in
    assert (String.eqb third "59") in
  match asserts with
  | Ok _ => (Ok tt, print ("Test_read_csv passed." +:+ nl) w)
  | Raise e => (Raise e, w)
  end.

(** *** The statistics of the demonstration *)

Definition digit (c : ascii) : option Z :=
  let n := Str.ord c in
  if Str.between 48 57 n then Some (Z.of_N n - 48)%Z else None.

(** A plain decimal numeral: an optional sign, then digits with at most
    one point among them. It denotes [mantissa / scale], negated under
    [negative]; [scale] is a power of ten. *)
Record decimal : Type := {
  negative : bool;
  mantissa : Z;
  scale : positive
}.

Fixpoint numeral (s : string) (point digits : bool) (m : Z) (d : positive) : option (Z * positive) :=
  match s with
  | EmptyString => if digits then Some (m, d) else None
  | String c s' =>
      if Ascii.eqb c "." then
        if point then None else numeral s' true digits m d
      else match digit c with
           | Some k => numeral s' point true (10 * m + k)%Z (if point then (10 * d)%positive else d)
           | None => None
           end
  end.

Definition parse_decimal (text : string) : option decimal :=
  let '(sign, body) :=
    match text with
    | String "-" s => (true, s)
    | String "+" s => (false, s)
    | _ => (false, text)
    end in
  match numeral body false false 0 1 with
  | Some (m, d) => Some {| negative := sign; mantissa := m; scale := d |}
  | None => None
  end.

(** The integer [z], not negative and below 2^63, as a binary64 number;
    exact below 2^53 and for the powers of ten up to 10^18. *)
Definition float_of_Z (z : Z) : PrimFloat.float :=
  PrimFloat.of_uint63 (Uint63.of_Z z).

(** [float(text)]: the binary64 number nearest to what the numeral
    denotes. Mantissa and scale are binary64 numbers themselves when the
    first is below 2^53 and the second at most 10^18, and then their
    quotient, rounded once by the division, is that number. Longer
    numerals and the other spellings Python reads (exponents, [inf],
    [nan], underscores, blanks around the numeral) are not modelled. *)
Definition float (text : string) : result PrimFloat.float :=
  match parse_decimal text with
  | Some x =>
      if (mantissa x <? 2 ^ 53)%Z && (Z.pos (scale x) <=? 10 ^ 18)%Z then
        let q := PrimFloat.div (float_of_Z (mantissa x)) (float_of_Z (Z.pos (scale x))) in
        Ok (if negative x then PrimFloat.opp q else q)
      else Raise NotModelled
  | None => Raise NotModelled
  end.

(** [sum(l)] on binary64 numbers: added one by one, from zero, each
    addition rounding (CPython since 3.12 carries a correction term along,
    which is not modelled). *)
Definition sum (l : list PrimFloat.float) : PrimFloat.float :=
  fold_left PrimFloat.add l PrimFloat.zero.

(** Line 93: [sum([float(row.height) for row in table]) / len(table)]. *)
Definition mean_height (table : list namedtuple_obj) : result PrimFloat.float :=
  let* heights := comprehension (fun row => let* h := getattr row "height" in float h) table in
  if (length table =? 0)%nat then Raise ZeroDivisionError
  else Ok (PrimFloat.div (sum heights) (float_of_Z (Z.of_nat (length table)))).

(** The same computation in exact rational arithmetic: each text is taken
    as the number it denotes and nothing is rounded. *)
Definition exact_float (text : string) : result Q :=
  match parse_decimal text with
  | Some x => Ok (if negative x then - (mantissa x # scale x) else mantissa x # scale x)%Q
  | None => Raise NotModelled
  end.

Definition exact_mean_height (table : list namedtuple_obj) : result Q :=
  let* heights := comprehension (fun row => let* h := getattr row "height" in exact_float h) table in
  if (length table =? 0)%nat then Raise ZeroDivisionError
  else Ok (fold_left Qplus heights 0 / inject_Z (Z.of_nat (length table)))%Q.

(** The rational number a finite binary64 number is. *)
Definition exact_value (x : PrimFloat.float) : option Q :=
  match FloatOps.Prim2SF x with
  | SpecFloat.S754_zero _ => Some 0%Q
  | SpecFloat.S754_finite s m e =>
      Some ((if s then - inject_Z (Z.pos m) else inject_Z (Z.pos m)) * Qpower 2 e)%Q
  | _ => None
  end.

(** The integer nearest to [q], a tie going to the even one. *)
Definition round_half_even (q : Q) : Z :=
  let f := Qfloor q in
  match (q - inject_Z f ?= 1 # 2)%Q with
  | Lt => f
  | Gt => (f + 1)%Z
  | Eq => if Z.even f then f else (f + 1)%Z
  end.

(** [q] rounded to two decimal places as the format [%4.2f] does it, in
    hundredths. *)
Definition hundredths (q : Q) : Z := round_half_even (q * 100).

(** ** Views of a file used to state the properties *)

(** [c] occurs in [s]. *)
Fixpoint occurs (c : ascii) (s : string) : bool :=
  match s with
  | EmptyString => false
  | String a s' => Ascii.eqb a c || occurs c s'
  end.

(** How many times [c] occurs in [s]. *)
Fixpoint count (c : ascii) (s : string) : nat :=
  match s with
  | EmptyString => 0
  | String a s' => (if Ascii.eqb a c then 1 else 0) + count c s'
  end.

(** [s] ends with the character [c]. *)
Fixpoint endswith (c : ascii) (s : string) : bool :=
  match s with
  | EmptyString => false
  | String a EmptyString => Ascii.eqb a c
  | String _ s' => endswith c s'
  end.

(** What a text-mode reader sees of the file [fname]. *)
Definition file_text (fname : string) (w : world) : option string :=
  universal_newlines <$> files w !! fname.

(** The header line, as [read_csv] passes it to [namedtuple], and the
    lines that follow it. *)
Definition header (text : string) : string :=
  Str.replace dquote "" (fst (take_line text)).

Definition data_lines (text : string) : list string :=
  splitlines (snd (take_line text)).

(** The names [namedtuple] takes from a header. *)
Definition field_names (header : string) : list string :=
  Str.split_whitespace (Str.replace "," " " header).

(** A field name [namedtuple] accepts on its own. *)
Definition valid_field_name (name : string) : bool :=
  Str.isidentifier name && negb (iskeyword name) && negb (Str.startswith "_" name).

(** No character of [s] is white space. *)
Definition spaceless (s : string) : bool :=
  Str.forallb_string (fun c => negb (Str.isspace c)) s.

(** The record [read_csv] makes of a line that fits the class [Row]. *)
Definition row_of (Row : namedtuple_class) (line : string) : namedtuple_obj :=
  {| cls := Row; items := words line |}.

Definition fits (Row : namedtuple_class) (line : string) : Prop :=
  length (words line) = length (_fields Row).

(** A world with one file, and the class [namedtuple] makes of a list of
    names it accepts. *)
Definition world_with (fname text : string) : world :=
  {| os := Posix; files := {[ fname := text ]}; stdout := EmptyString |}.

Definition class_of (names : list string) : namedtuple_class :=
  {| typename := "Row"; _fields := names; getters := class_namespace 0 names ∅ |}.

Definition example_world : world := world_with "trivial_test_example.csv" contents.

Definition example_Row : namedtuple_class :=
  class_of ["first_name"; "second_name"; "age"; "height"; "gender"].

(** Small files for the edge cases: a second data line that is one token
    short, a header alone, a header entry with a space in it, and a
    header that is not a list of names. *)
Definition short_line_csv : string :=
  "a,b" +:+ nl +:+ "1,2" +:+ nl +:+ "3" +:+ nl.

Definition header_only_csv : string := "a,b" +:+ nl.

Definition spaced_name_csv : string :=
  "first name,age" +:+ nl +:+ "Fred,Bloggs,59" +:+ nl.

Definition keyword_name_csv : string :=
  "name,class" +:+ nl +:+ "Fred,3b" +:+ nl.

(** More of them: a name given twice, a file that ends with a blank line,
    a first line without any name, and quoted values with a comma inside. *)
Definition repeated_name_csv : string :=
  "a,b,a" +:+ nl +:+ "1,2,3" +:+ nl.

Definition blank_line_csv : string :=
  "a,b" +:+ nl +:+ "1,2" +:+ nl +:+ nl.

Definition no_names_csv : string :=
  nl +:+ "1,2" +:+ nl.

(** Two names that differ only by an ordinal indicator for a letter. *)
Definition indicator_csv : string :=
  String "170" ",a" +:+ nl.

Definition quoted_csv : string :=
  "name,town" +:+ nl +:+
  String dquote ("Bloggs, Fred" +:+ String dquote (",Leeds" +:+ nl)).

(** A table written out as the file format has it: on each line the
    entries joined by commas, the header line first. *)
Definition csv_line (entries : list string) : string :=
  String.concat "," entries +:+ nl.

Definition csv_text (names : list string) (table : list (list string)) : string :=
  csv_line names +:+ String.concat EmptyString (map csv_line table).

(** The same with double quotes: an entry is written bare or, under
    [true], between double quotes. *)
Definition written (entry : bool * string) : string :=
  if entry.1 then String dquote (entry.2 +:+ String dquote EmptyString) else entry.2.

Definition written_entries (entries : list (bool * string)) : string :=
  String.concat "," (map written entries).



(** A value that comes back from the file as it was written: no comma,
    no double quote, no line feed. *)
Definition plain (v : string) : bool :=
  negb (occurs "," v) && negb (occurs dquote v) && negb (occurs lf v).

(** A run of [k] line feeds. *)
Definition newlines (k : nat) : string := string_of_list_ascii (repeat lf k).

(** *** The specification's wording, for comparison *)

(** "strip exactly one trailing newline character" *)
Fixpoint strip_one_newline (s : string) : string :=
  match s with
  | EmptyString => EmptyString
  | String a EmptyString => if Ascii.eqb a lf then EmptyString else s
  | String a s' => String a (strip_one_newline s')
  end.

(** "remove literal double-quote characters, strip exactly one trailing
    newline character, split on commas into a sequence of text tokens" *)
Definition spec_words (line : string) : list string :=
  Str.split "," (strip_one_newline (Str.replace dquote "" line)).

(** "derived by splitting the file's first line on commas and removing
    literal double-quote characters" *)
Definition spec_field_names (first_line : string) : list string :=
  Str.split "," (Str.replace dquote "" first_line).

(** The shape of a line as [readline] and [readlines] return it: not
    empty, and with no line feed except, possibly, as its last character. *)
Definition is_line (l : string) : Prop :=
  l <> EmptyString /\
  exists body, occurs lf body = false /\ (l = body \/ l = body +:+ nl).

(** * Properties *)

#[local] Arguments String.append _ _ : simpl nomatch.

(** ** Strings *)

Section Strings.

Implicit Types (s t : string) (a c : ascii).

Lemma append_empty_r s : s +:+ EmptyString = s.
Proof. induction s; simpl; congruence. Qed.

Lemma append_assoc s t u : (s +:+ t) +:+ u = s +:+ (t +:+ u).
Proof. induction s; simpl; congruence. Qed.

Lemma occurs_append c s t : occurs c (s +:+ t) = occurs c s || occurs c t.
Proof.
  induction s as [|a s IH]; simpl; [reflexivity|].
  rewrite IH. apply orb_assoc.
Qed.

Lemma rstrip_absent c s : occurs c s = false -> Str.rstrip c s = s.
Proof.
  induction s as [|a s IH]; simpl; [reflexivity|].
  intros [Ha Hs]%orb_false_elim. rewrite (IH Hs).
  destruct s; [now rewrite Ha | reflexivity].
Qed.

Lemma rstrip_snoc c s : Str.rstrip c (s +:+ String c EmptyString) = Str.rstrip c s.
Proof.
  induction s as [|a s IH]; simpl.
  - now rewrite Ascii.eqb_refl.
  - now rewrite IH.
Qed.

(** What [rstrip] returns does not end with the stripped character. *)
Lemma rstrip_endswith c s : endswith c (Str.rstrip c s) = false.
Proof.
  induction s as [|a s IH]; simpl; [reflexivity|].
  destruct (Str.rstrip c s) as [|b r] eqn:E.
  - destruct (Ascii.eqb a c) eqn:Ea; simpl; [reflexivity | exact Ea].
  - exact IH.
Qed.

(** It only removes copies of that character from the end. *)
Lemma rstrip_spec c s :
  exists k, s = Str.rstrip c s +:+ string_of_list_ascii (repeat c k).
Proof.
  induction s as [|a s [k IH]]; simpl.
  - now exists 0.
  - destruct (Str.rstrip c s) as [|b r] eqn:E.
    + destruct (Ascii.eqb_spec a c) as [->|Hne].
      * exists (S k). simpl in *. now rewrite IH at 1.
      * exists k. simpl in *. now rewrite IH at 1.
    + exists k. simpl. now rewrite IH at 1.
Qed.

Lemma strip_one_newline_snoc s : strip_one_newline (s +:+ nl) = s.
Proof.
  induction s as [|a s IH]; [reflexivity|].
  simpl. destruct (s +:+ nl) eqn:E.
  - destruct s; discriminate.
  - now rewrite IH.
Qed.

Lemma strip_one_newline_absent s : occurs lf s = false -> strip_one_newline s = s.
Proof.
  induction s as [|a s IH]; [reflexivity|].
  simpl. intros [Ha Hs]%orb_false_elim.
  destruct s; [now rewrite Ha | now rewrite (IH Hs)].
Qed.

Lemma replace_append c new s t :
  Str.replace c new (s +:+ t) = Str.replace c new s +:+ Str.replace c new t.
Proof.
  induction s as [|a s IH]; simpl; [reflexivity|].
  destruct (Ascii.eqb a c); rewrite IH; [now rewrite append_assoc | reflexivity].
Qed.

(** Removing a character leaves the occurrences of the others alone. *)
Lemma occurs_remove c a s :
  a <> c -> occurs c (Str.replace a EmptyString s) = occurs c s.
Proof.
  intros Hne. induction s as [|b s IH]; simpl; [reflexivity|].
  destruct (Ascii.eqb_spec b a) as [->|Hb]; simpl.
  - rewrite IH. destruct (Ascii.eqb_spec a c); [contradiction | reflexivity].
  - now rewrite IH.
Qed.

End Strings.

(** ** Lines *)

Section Lines.

Implicit Types (s l : string).

Lemma endswith_snoc c s : endswith c (s +:+ String c EmptyString) = true.
Proof.
  induction s as [|a s IH]; simpl.
  - apply Ascii.eqb_refl.
  - destruct (s +:+ String c EmptyString) eqn:E; [destruct s; discriminate | exact IH].
Qed.

Lemma endswith_inv c s :
  endswith c s = true -> exists s', s = s' +:+ String c EmptyString.
Proof.
  induction s as [|a s IH]; simpl; [discriminate|].
  destruct s as [|b s].
  - intros ->%Ascii.eqb_eq. now exists EmptyString.
  - intros [s' ->]%IH. now exists (String a s').
Qed.

(** [take_line] cuts the text in two, after the first line feed. *)
Lemma take_line_append s : fst (take_line s) +:+ snd (take_line s) = s.
Proof.
  induction s as [|a s IH]; simpl; [reflexivity|].
  destruct (Ascii.eqb a lf); [reflexivity|].
  destruct (take_line s) as [l r]; simpl in *. now rewrite IH.
Qed.

Lemma take_line_is_line s : s <> EmptyString -> is_line (fst (take_line s)).
Proof.
  induction s as [|a s IH]; [congruence|]. intros _. simpl.
  destruct (Ascii.eqb_spec a lf) as [->|Hne]; simpl.
  - split; [discriminate|]. exists EmptyString. now split; [|right].
  - destruct (take_line s) as [l r] eqn:E; simpl in *.
    split; [discriminate|].
    destruct s as [|b s].
    + injection E as <- <-. exists (String a EmptyString). simpl.
      split; [|now left]. destruct (Ascii.eqb_spec a lf); [contradiction | reflexivity].
    + destruct IH as [_ (body & Hb & Hl)]; [discriminate|].
      exists (String a body). simpl. rewrite Hb.
      split; [destruct (Ascii.eqb_spec a lf); [contradiction | reflexivity]|].
      destruct Hl as [->| ->]; [now left | now right].
Qed.

(** The lines of a text, put end to end, are the text. *)
Lemma splitlines_concat s : String.concat EmptyString (splitlines s) = s.
Proof.
  assert (Hc : forall l ls, String.concat EmptyString (l :: ls)
                            = l +:+ String.concat EmptyString ls).
  { intros l [|l' ls]; simpl; [now rewrite append_empty_r | reflexivity]. }
  induction s as [|a s IH]; [reflexivity|].
  cbn [splitlines]. destruct (Ascii.eqb a lf).
  - now rewrite Hc, IH.
  - destruct (splitlines s) as [|l ls].
    + simpl in IH. now subst s.
    + rewrite Hc in *. simpl. now rewrite IH.
Qed.

Lemma splitlines_is_line s l : l ∈ splitlines s -> is_line l.
Proof.
  revert l. induction s as [|a s IH]; intros l; cbn [splitlines].
  - intros H. inversion H.
  - destruct (Ascii.eqb_spec a lf) as [->|Hne].
    + intros [->|Hl]%elem_of_cons; [|now apply IH].
      split; [discriminate|]. exists EmptyString. now split; [|right].
    + assert (Ha : Ascii.eqb a lf = false) by now apply Ascii.eqb_neq.
      destruct (splitlines s) as [|l0 ls].
      * intros ->%list_elem_of_singleton. split; [discriminate|].
        exists (String a EmptyString). simpl. rewrite Ha. now split; [|left].
      * intros [->|Hl]%elem_of_cons.
        -- destruct (IH l0) as [_ (body & Hb & Hl0)]; [left|].
           split; [discriminate|]. exists (String a body). simpl. rewrite Ha, Hb.
           split; [reflexivity|]. destruct Hl0 as [->| ->]; [now left | now right].
        -- apply IH. now right.
Qed.

(** On a line, [rstrip] of the line feed and the removal of exactly one
    trailing line feed are the same thing; double quotes do not matter. *)
Lemma words_line l : is_line l -> words l = spec_words l.
Proof.
  intros [_ (body & Hb & Hl)]. unfold words, spec_words. f_equal.
  assert (Hb' : occurs lf (Str.replace dquote EmptyString body) = false).
  { rewrite occurs_remove; [exact Hb | discriminate]. }
  destruct Hl as [->| ->].
  - now rewrite rstrip_absent, strip_one_newline_absent.
  - rewrite replace_append. change (Str.replace dquote EmptyString nl) with nl.
    unfold nl at 1. rewrite rstrip_snoc, strip_one_newline_snoc.
    now apply rstrip_absent.
Qed.

End Lines.

(** ** The class made from the header *)

Section Namedtuple.

Implicit Types (name : string) (names seen : list string).

Lemma mem_spec name names : mem name names = true <-> name ∈ names.
Proof.
  unfold mem. rewrite existsb_exists, list_elem_of_In. split.
  - intros (x & Hx & ->%String.eqb_eq). exact Hx.
  - intros H. exists name. split; [exact H | apply String.eqb_refl].
Qed.

Lemma mem_false name names : mem name names = false <-> name ∉ names.
Proof.
  rewrite <- mem_spec. destruct (mem name names); split; congruence.
Qed.

Lemma check_names_Ok names :
  check_names names = Ok tt <->
  Forall (fun name => Str.isidentifier name = true /\ iskeyword name = false) names.
Proof.
  induction names as [|name names IH]; simpl; [now split|].
  rewrite Forall_cons, <- IH.
  destruct (Str.isidentifier name), (iskeyword name); simpl;
    split; try tauto; try discriminate; intros [[? ?] _]; discriminate.
Qed.

Lemma check_names_Raise names e :
  check_names names = Raise e -> exists why, e = ValueError why.
Proof.
  induction names as [|name names IH]; simpl; [discriminate|].
  destruct (Str.isidentifier name), (iskeyword name); simpl;
    try exact IH; intros [= <-]; eauto.
Qed.

Lemma check_fields_Ok seen names :
  check_fields seen names = Ok tt <->
  Forall (fun name => Str.startswith "_" name = false) names /\
  NoDup names /\ (forall name, name ∈ names -> name ∉ seen).
Proof.
  revert seen. induction names as [|name names IH]; intros seen; simpl.
  - split; [|reflexivity]. intros _.
    split; [constructor | split; [constructor|]].
    intros name H. inversion H.
  - rewrite Forall_cons, NoDup_cons.
    destruct (Str.startswith "_" name); [split; [discriminate | intros [[[=] _] _]]|].
    destruct (mem name seen) eqn:Hm.
    + apply mem_spec in Hm. split; [discriminate|].
      intros (_ & _ & H). destruct (H name); [left | exact Hm].
    + apply mem_false in Hm. rewrite IH. split.
      * intros (Hu & Hnd & Hs). repeat split; try assumption.
        -- intros Hin. apply (Hs _ Hin). left.
        -- intros n [->|Hn]%elem_of_cons; [exact Hm|].
           intros Hin. apply (Hs _ Hn). now right.
      * intros ([_ Hu] & [Hnotin Hnd] & Hs). repeat split; try assumption.
        intros n Hn [->|Hin]%elem_of_cons; [contradiction|].
        apply (Hs n); [now right | exact Hin].
Qed.

Lemma check_fields_Raise seen names e :
  check_fields seen names = Raise e -> exists why, e = ValueError why.
Proof.
  revert seen. induction names as [|name names IH]; intros seen; simpl; [discriminate|].
  destruct (Str.startswith "_" name); [intros [= <-]; eauto|].
  destruct (mem name seen); [intros [= <-]; eauto | apply IH].
Qed.

(** The class namespace sends each of distinct names to its position. *)
Lemma class_namespace_other index names (ns : gmap string nat) name :
  name ∉ names -> class_namespace index names ns !! name = ns !! name.
Proof.
  revert index ns. induction names as [|n names IH]; intros index ns; simpl; [reflexivity|].
  intros [Hne Hnotin]%not_elem_of_cons.
  rewrite IH by exact Hnotin. now apply lookup_insert_ne.
Qed.

Lemma class_namespace_lookup index names (ns : gmap string nat) i name :
  NoDup names -> names !! i = Some name ->
  class_namespace index names ns !! name = Some (index + i).
Proof.
  revert index ns i. induction names as [|n names IH]; intros index ns i; [discriminate|].
  intros [Hnotin Hnd]%NoDup_cons. destruct i as [|i]; simpl.
  - intros [= ->]. rewrite class_namespace_other by exact Hnotin.
    rewrite lookup_insert_eq. f_equal. lia.
  - intros Hi. rewrite (IH _ _ i Hnd Hi). f_equal. lia.
Qed.

Lemma class_namespace_absent index names (ns : gmap string nat) name :
  class_namespace index names ns !! name = None -> name ∉ names.
Proof.
  revert index ns. induction names as [|n names IH]; intros index ns; simpl.
  - intros _ H. inversion H.
  - intros H. apply not_elem_of_cons. split; [|now apply IH in H].
    intros ->. destruct (decide (n ∈ names)) as [Hin|Hnotin].
    + now apply IH in H.
    + rewrite class_namespace_other, lookup_insert_eq in H by exact Hnotin. discriminate.
Qed.

(** What a successful call of [namedtuple] has checked and built. *)
Lemma namedtuple_Ok tn h Row :
  namedtuple tn h = Ok Row ->
  typename Row = tn /\ _fields Row = field_names h /\
  getters Row = class_namespace 0 (field_names h) ∅ /\
  Forall (fun name => valid_field_name name = true) (field_names h) /\
  NoDup (field_names h).
Proof.
  unfold namedtuple. fold (field_names h).
  destruct (check_names (tn :: field_names h)) as [[]|e] eqn:E1; [|discriminate].
  destruct (check_fields [] (field_names h)) as [[]|e] eqn:E2; [|discriminate].
  destruct (check_arguments ["_cls"] (field_names h)) as [[]|e] eqn:E3; [|discriminate].
  simpl. intros [= <-]. simpl. repeat split.
  - apply check_names_Ok in E1. apply Forall_cons in E1 as [_ E1].
    apply check_fields_Ok in E2 as (E2 & _ & _).
    rewrite Forall_forall in *. intros name Hn. unfold valid_field_name.
    destruct (E1 _ Hn) as [-> ->]. now rewrite (E2 _ Hn).
  - now apply check_fields_Ok in E2.
Qed.

(** An invalid name among those of the header makes [namedtuple] raise
    [ValueError], whatever the other names are. *)
Lemma namedtuple_invalid tn h name :
  name ∈ field_names h -> valid_field_name name = false ->
  exists why, namedtuple tn h = Raise (ValueError why).
Proof.
  intros Hin Hinv. unfold namedtuple. fold (field_names h).
  destruct (check_names (tn :: field_names h)) as [[]|e] eqn:E1.
  - destruct (check_fields [] (field_names h)) as [[]|e] eqn:E2.
    + exfalso. apply check_names_Ok in E1. apply Forall_cons in E1 as [_ E1].
      apply check_fields_Ok in E2 as (E2 & _ & _).
      rewrite Forall_forall in *. unfold valid_field_name in Hinv.
      destruct (E1 _ Hin) as [H1 H2]. rewrite H1, H2, (E2 _ Hin) in Hinv. discriminate.
    + apply check_fields_Raise in E2 as [why ->]. simpl. eauto.
  - apply check_names_Raise in E1 as [why ->]. simpl. eauto.
Qed.

End Namedtuple.

Section Whitespace.

(** The tokens of [split()] are not empty and hold no white space. *)
Lemma split_whitespace_tokens s :
  Forall (fun t => t <> EmptyString /\ spaceless t = true) (Str.split_whitespace s).
Proof.
  induction s as [|a s IH]; cbn [Str.split_whitespace]; [constructor|].
  destruct (Str.isspace a) eqn:Ha; [exact IH|].
  assert (H1 : String a EmptyString <> EmptyString /\ spaceless (String a EmptyString) = true).
  { split; [discriminate|]. cbn [spaceless Str.forallb_string]. now rewrite Ha. }
  destruct s as [|b s]; [now repeat constructor|].
  destruct (Str.isspace b); [now constructor|].
  destruct (Str.split_whitespace (String b s)) as [|w ws]; [now repeat constructor|].
  apply Forall_cons in IH as [[_ Hw] Hws]. constructor; [|exact Hws].
  split; [discriminate|]. cbn [spaceless Str.forallb_string] in *. now rewrite Ha.
Qed.

Lemma spaceless_no_lf s : spaceless s = true -> occurs lf s = false.
Proof.
  induction s as [|a s IH]; simpl; [reflexivity|].
  intros [Ha Hs]%andb_prop. rewrite (IH Hs), orb_false_r.
  destruct (Ascii.eqb_spec a lf) as [->|]; [discriminate Ha | reflexivity].
Qed.

End Whitespace.

(** ** Records *)

Section Rows.

Variable Row : namedtuple_class.

Lemma new_Ok args : length args = length (_fields Row) ->
  new Row args = Ok {| cls := Row; items := args |}.
Proof. intros H. unfold new. now rewrite H, Nat.eqb_refl. Qed.

Lemma new_Raise args : length args <> length (_fields Row) ->
  new Row args = Raise (TypeError (length (_fields Row)) (length args)).
Proof. intros H. unfold new. now apply Nat.eqb_neq in H as ->. Qed.

(** When every line has as many tokens as the class has fields, the
    comprehension yields one record per line, in the order of the lines. *)
Lemma rows_Ok lines :
  Forall (fits Row) lines ->
  comprehension (fun line => new Row (words line)) lines = Ok (map (row_of Row) lines).
Proof.
  induction 1 as [|line lines Hl _ IH]; simpl; [reflexivity|].
  now rewrite (new_Ok _ Hl), IH.
Qed.

(** The first line that does not ends the comprehension with [TypeError]. *)
Lemma rows_Raise lines :
  Exists (fun line => ~ fits Row line) lines ->
  exists given, given <> length (_fields Row) /\
    comprehension (fun line => new Row (words line)) lines
    = Raise (TypeError (length (_fields Row)) given).
Proof.
  induction lines as [|line lines IH]; intros H; [inversion H|]. simpl.
  destruct (decide (length (words line) = length (_fields Row))) as [Hl|Hl].
  - rewrite (new_Ok _ Hl). simpl.
    apply Exists_cons in H as [H|H]; [contradiction|].
    destruct (IH H) as (given & Hg & ->). now exists given.
  - rewrite (new_Raise _ Hl). simpl. now exists (length (words line)).
Qed.

Lemma rows_inv lines rows :
  comprehension (fun line => new Row (words line)) lines = Ok rows ->
  Forall (fits Row) lines /\ rows = map (row_of Row) lines.
Proof.
  revert rows. induction lines as [|line lines IH]; intros rows; simpl.
  - intros [= <-]. now split.
  - destruct (decide (length (words line) = length (_fields Row))) as [Hl|Hl].
    + rewrite (new_Ok _ Hl). simpl.
      destruct (comprehension _ lines) as [rs|e]; [|discriminate].
      destruct (IH rs eq_refl) as [Hf ->]. intros [= <-]. split; [now constructor | reflexivity].
    + now rewrite (new_Raise _ Hl).
Qed.

End Rows.

(** ** Reading a file *)

Section Reading.

(** [read_csv] on a file that exists: the class from the header, then
    the comprehension over the data lines. *)
Lemma read_csv_body_unfold (f : TextIO) :
  read_csv_body f =
  match namedtuple "Row" (header (unread f)) with
  | Raise e => (Raise e, {| unread := snd (take_line (unread f)) |})
  | Ok Row =>
      (comprehension (fun line => new Row (words line)) (data_lines (unread f)),
       {| unread := EmptyString |})
  end.
Proof.
  unfold read_csv_body, read_header, read_rows, readline, readlines, io_bind, lift,
    io_ret, header, data_lines.
  destruct (take_line (unread f)) as [l r]. simpl.
  destruct (namedtuple "Row" (Str.replace dquote EmptyString l)) as [Row|e]; [|reflexivity].
  simpl. now destruct (comprehension _ _).
Qed.

Lemma read_csv_unfold fname w text :
  file_text fname w = Some text ->
  read_csv fname w =
  let* Row := namedtuple "Row" (header text) in
  comprehension (fun line => new Row (words line)) (data_lines text).
Proof.
  unfold file_text, read_csv, with_open_r, open_r.
  destruct (files w !! fname) as [data|]; [|discriminate].
  intros [= <-]. simpl. rewrite read_csv_body_unfold. simpl.
  now destruct (namedtuple _ _).
Qed.

Lemma read_csv_missing fname w :
  file_text fname w = None -> read_csv fname w = Raise (FileNotFoundError fname).
Proof.
  unfold file_text, read_csv, with_open_r, open_r.
  now destruct (files w !! fname).
Qed.

(** Writing in text mode and reading back gives the text written, when it
    holds no carriage return, on either platform. *)
Lemma universal_newlines_write p s :
  occurs cr s = false -> universal_newlines (write_newlines p s) = s.
Proof.
  unfold write_newlines. induction s as [|a s IH]; [reflexivity|].
  cbn [occurs Str.replace]. intros [Ha Hs]%orb_false_elim.
  destruct (Ascii.eqb_spec a lf) as [->|Hne].
  - destruct p; cbn; f_equal; exact (IH Hs).
  - cbn [universal_newlines]. now rewrite Ha, (IH Hs).
Qed.

Lemma file_text_write fname text w :
  occurs cr text = false -> file_text fname (write_file fname text w) = Some text.
Proof.
  intros H. unfold file_text, write_file. cbn [files].
  rewrite lookup_insert_eq. cbn [fmap option_fmap option_map].
  now rewrite (universal_newlines_write _ _ H).
Qed.

End Reading.

(** ** The example file *)

Section Example.

Lemma contents_no_cr : occurs cr contents = false.
Proof. reflexivity. Qed.

Lemma file_text_example fname w :
  file_text fname (create_example_csv_file fname w) = Some contents.
Proof. apply file_text_write, contents_no_cr. Qed.

(** The records [read_csv] makes of the example text, already evaluated. *)
Lemma read_example fname w :
  file_text fname w = Some contents ->
  exists Row, _fields Row = ["first_name"; "second_name"; "age"; "height"; "gender"] /\
    getters Row !! "age" = Some 2 /\ getters Row !! "height" = Some 3 /\
    read_csv fname w = Ok (map (fun args => {| cls := Row; items := args |})
      [ ["Fred"; "Bloggs"; "59"; "1.95"; "male"];
        ["Peter"; "Bloggs"; "15"; "1.86"; "male"];
        ["Ann"; "Somebody"; "32"; "1.76"; "female"];
        ["Ada"; "Lovelace"; "46"; "1.67"; "female"] ]).
Proof.
  intros H. rewrite (read_csv_unfold _ _ _ H).
  destruct (namedtuple "Row" (header contents)) as [Row|e] eqn:E; [|vm_compute in E; discriminate].
  exists Row. vm_compute in E. injection E as <-. repeat split.
Qed.

End Example.

(** ** Tables written as text *)

Section Tables.

Implicit Types (s t : string) (c : ascii) (names entries : list string).

(** A character of an identifier is no white space, comma or quote. *)
Lemma xid_continue_plain c :
  Str.xid_continue c = true ->
  Str.isspace c = false /\ Ascii.eqb c "," = false /\ Ascii.eqb c dquote = false.
Proof.
  destruct c as [[] [] [] [] [] [] [] []]; intros H; try discriminate H;
    repeat split.
Qed.

Lemma xid_start_continue c : Str.xid_start c = true -> Str.xid_continue c = true.
Proof. intros H. unfold Str.xid_continue. now rewrite H. Qed.

Lemma identifier_chars s :
  Str.forallb_string Str.xid_continue s = true ->
  spaceless s = true /\ occurs "," s = false /\ occurs dquote s = false.
Proof.
  induction s as [|c s IH]; [now repeat split|].
  cbn [Str.forallb_string spaceless occurs]. intros [Hc Hs]%andb_prop.
  destruct (xid_continue_plain c Hc) as (H1 & H2 & H3).
  destruct (IH Hs) as (I1 & I2 & I3).
  unfold spaceless in I1. now rewrite H1, H2, H3, I1, I2, I3.
Qed.

Lemma valid_field_name_plain name :
  valid_field_name name = true ->
  name <> EmptyString /\ spaceless name = true /\
  occurs "," name = false /\ occurs dquote name = false.
Proof.
  unfold valid_field_name. intros [[Hid _]%andb_prop _]%andb_prop.
  destruct name as [|c s]; [discriminate|]. split; [discriminate|].
  apply identifier_chars. cbn [Str.forallb_string].
  simpl in Hid. apply andb_prop in Hid as [Hc ->].
  now rewrite (xid_start_continue _ Hc).
Qed.

Lemma replace_absent c new s : occurs c s = false -> Str.replace c new s = s.
Proof.
  induction s as [|a s IH]; simpl; [reflexivity|].
  intros [-> Hs]%orb_false_elim. now rewrite (IH Hs).
Qed.

Lemma occurs_concat c sep entries :
  occurs c sep = false -> Forall (fun t => occurs c t = false) entries ->
  occurs c (String.concat sep entries) = false.
Proof.
  intros Hsep. induction 1 as [|t entries Ht Hts IH]; [reflexivity|].
  destruct entries as [|t' entries]; [exact Ht|].
  change (String.concat sep (t :: t' :: entries))
    with (t +:+ sep +:+ String.concat sep (t' :: entries)).
  now rewrite !occurs_append, Ht, Hsep, IH.
Qed.

(** [split] undoes the joining of entries that hold no separator. *)
Lemma split_absent c s : occurs c s = false -> Str.split c s = [s].
Proof.
  induction s as [|a s IH]; simpl; [reflexivity|].
  intros [-> Hs]%orb_false_elim. now rewrite (IH Hs).
Qed.

Lemma split_append c s t :
  occurs c s = false -> Str.split c (s +:+ String c t) = s :: Str.split c t.
Proof.
  induction s as [|a s IH]; simpl.
  - intros _. now rewrite Ascii.eqb_refl.
  - intros [-> Hs]%orb_false_elim. now rewrite (IH Hs).
Qed.

Lemma split_concat c entries :
  entries <> [] -> Forall (fun t => occurs c t = false) entries ->
  Str.split c (String.concat (String c EmptyString) entries) = entries.
Proof.
  intros Hne H. induction H as [|t entries Ht Hts IH]; [congruence|].
  destruct entries as [|t' entries]; [now apply split_absent|].
  change (String.concat (String c EmptyString) (t :: t' :: entries))
    with (t +:+ String c (String.concat (String c EmptyString) (t' :: entries))).
  rewrite (split_append _ _ _ Ht), IH; [reflexivity | discriminate].
Qed.

(** The tokens of a line of plain values are the values. *)
Lemma words_csv_line entries :
  entries <> [] -> Forall (fun v => plain v = true) entries ->
  words (csv_line entries) = entries.
Proof.
  intros Hne Hplain. unfold words, csv_line.
  assert (H : Forall (fun v => occurs "," v = false /\ occurs dquote v = false /\
                               occurs lf v = false) entries).
  { eapply Forall_impl; [exact Hplain|]. intros v.
    unfold plain. rewrite !andb_true_iff, !negb_true_iff. tauto. }
  rewrite replace_append, (replace_absent dquote).
  - change (Str.replace dquote EmptyString nl) with (String lf EmptyString).
    rewrite rstrip_snoc, rstrip_absent.
    + apply split_concat; [exact Hne|]. eapply Forall_impl; [exact H|]. intros v (? & ? & ?); assumption.
    + apply occurs_concat; [reflexivity|]. eapply Forall_impl; [exact H|]. intros v (? & ? & ?); assumption.
  - apply occurs_concat; [reflexivity|]. eapply Forall_impl; [exact H|]. intros v (? & ? & ?); assumption.
Qed.

Lemma concat_cons s (l : list string) :
  String.concat EmptyString (s :: l) = s +:+ String.concat EmptyString l.
Proof. destruct l; simpl; [now rewrite append_empty_r | reflexivity]. Qed.

(** [split()] gives back names that were joined by white space. *)
Lemma split_whitespace_token t c s :
  t <> EmptyString -> spaceless t = true -> Str.isspace c = true ->
  Str.split_whitespace (t +:+ String c s) = t :: Str.split_whitespace s.
Proof.
  intros Hne Ht Hc. induction t as [|a t IH]; [congruence|].
  cbn [spaceless Str.forallb_string] in Ht. apply andb_prop in Ht as [Ha Ht].
  apply negb_true_iff in Ha. destruct t as [|b t].
  - cbn. now rewrite Ha, Hc.
  - assert (Hb : Str.isspace b = false).
    { cbn [Str.forallb_string] in Ht. apply andb_prop in Ht as [Hb _].
      now apply negb_true_iff in Hb. }
    change (String a (String b t) +:+ String c s)
      with (String a (String b t +:+ String c s)).
    cbn [Str.split_whitespace]. rewrite Ha.
    change (String b t +:+ String c s) with (String b (t +:+ String c s)) at 1.
    cbv iota beta. rewrite Hb.
    change (String b (t +:+ String c s)) with (String b t +:+ String c s).
    rewrite IH; [reflexivity | discriminate | exact Ht].
Qed.

Lemma field_names_csv_line names :
  Forall (fun name => valid_field_name name = true) names ->
  field_names (csv_line names) = names.
Proof.
  unfold field_names, csv_line.
  induction 1 as [|t names Ht Hts IH]; [reflexivity|].
  apply valid_field_name_plain in Ht as (Hne & Hsp & Hco & _).
  destruct names as [|t' names].
  - cbn [String.concat]. rewrite replace_append, (replace_absent _ _ _ Hco).
    change (Str.replace "," " " nl) with (String lf EmptyString).
    now rewrite split_whitespace_token.
  - change (String.concat "," (t :: t' :: names))
      with (t +:+ String "," (String.concat "," (t' :: names))).
    rewrite append_assoc, replace_append, (replace_absent _ _ _ Hco).
    change (String "," (String.concat "," (t' :: names)) +:+ nl)
      with (String "," (String.concat "," (t' :: names) +:+ nl)).
    cbn [Str.replace]. change (Ascii.eqb "," ",") with true. cbv iota.
    change (" " +:+ ?x) with (String " " x).
    rewrite split_whitespace_token by (assumption || reflexivity).
    now rewrite IH.
Qed.

(** The lines of a text made of lines. *)
Lemma take_line_csv s r :
  occurs lf s = false -> take_line ((s +:+ nl) +:+ r) = (s +:+ nl, r).
Proof.
  induction s as [|a s IH]; [reflexivity|]. simpl.
  intros [-> Hs]%orb_false_elim. now rewrite (IH Hs).
Qed.

Lemma splitlines_csv s r :
  occurs lf s = false -> splitlines ((s +:+ nl) +:+ r) = (s +:+ nl) :: splitlines r.
Proof.
  induction s as [|a s IH]; [reflexivity|]. simpl.
  intros [-> Hs]%orb_false_elim. now rewrite (IH Hs).
Qed.

Lemma plain_entries_no_lf entries :
  Forall (fun v => plain v = true) entries ->
  occurs lf (String.concat "," entries) = false.
Proof.
  intros H. apply occurs_concat; [reflexivity|].
  eapply Forall_impl; [exact H|]. intros v.
  unfold plain. rewrite !andb_true_iff, !negb_true_iff. tauto.
Qed.

Lemma splitlines_csv_lines (table : list (list string)) :
  Forall (Forall (fun v => plain v = true)) table ->
  splitlines (String.concat EmptyString (map csv_line table)) = map csv_line table.
Proof.
  induction 1 as [|entries table He _ IH]; [reflexivity|].
  cbn [map]. rewrite concat_cons. unfold csv_line at 1.
  rewrite splitlines_csv by now apply plain_entries_no_lf.
  now rewrite IH.
Qed.

(** [namedtuple] accepts names that are valid one by one and stay
    distinct once normalised. *)
Lemma nfkc_underscore name :
  Str.startswith "_" (nfkc name) = true -> Str.startswith "_" name = true.
Proof.
  destruct name as [|c s]; [discriminate|]. simpl.
  destruct c as [[] [] [] [] [] [] [] []]; intros H; try discriminate H; reflexivity.
Qed.

Lemma check_arguments_Ok seen names :
  (forall name, name ∈ names -> nfkc name ∉ seen) ->
  NoDup (nfkc <$> names) ->
  check_arguments seen names = Ok tt.
Proof.
  revert seen. induction names as [|name names IH]; intros seen Hs Hnd; [reflexivity|].
  cbn [check_arguments]. cbn [fmap list_fmap] in Hnd.
  apply NoDup_cons in Hnd as [Hnotin Hnd].
  assert (Hm : mem (nfkc name) seen = false) by (apply mem_false, Hs; left).
  rewrite Hm. apply IH; [|exact Hnd].
  intros n Hn [Heq|Hin]%elem_of_cons.
  - apply Hnotin. rewrite <- Heq. apply list_elem_of_fmap. now exists n.
  - apply (Hs n); [now right | exact Hin].
Qed.

Lemma namedtuple_accepts h :
  Forall (fun name => valid_field_name name = true) (field_names h) ->
  NoDup (nfkc <$> field_names h) ->
  namedtuple "Row" h = Ok (class_of (field_names h)).
Proof.
  intros Hvalid Hnd. unfold namedtuple. fold (field_names h).
  assert (Hv : forall name, name ∈ field_names h ->
             Str.isidentifier name = true /\ iskeyword name = false /\
             Str.startswith "_" name = false).
  { rewrite Forall_forall in Hvalid. intros name Hn. specialize (Hvalid _ Hn).
    unfold valid_field_name in Hvalid.
    rewrite !andb_true_iff, !negb_true_iff in Hvalid. tauto. }
  assert (E1 : check_names ("Row" :: field_names h) = Ok tt).
  { apply check_names_Ok. constructor; [now split|].
    apply Forall_forall. intros name Hn. destruct (Hv _ Hn) as (? & ? & _). now split. }
  assert (E2 : check_fields [] (field_names h) = Ok tt).
  { apply check_fields_Ok. split; [|split].
    - apply Forall_forall. intros name Hn. now destruct (Hv _ Hn) as (_ & _ & ?).
    - exact (NoDup_fmap_1 nfkc _ Hnd).
    - intros name _ Hin. inversion Hin. }
  assert (E3 : check_arguments ["_cls"] (field_names h) = Ok tt).
  { apply check_arguments_Ok; [|exact Hnd].
    intros name Hn Hcls%list_elem_of_singleton.
    destruct (Hv _ Hn) as (_ & _ & Hu).
    assert (Ht : Str.startswith "_" name = true)
      by (apply nfkc_underscore; now rewrite Hcls).
    congruence. }
  rewrite E1, E2, E3. reflexivity.
Qed.

(** X13. Reading back a table: when the first line lists valid, distinct field
    names separated by commas and every other line lists as many plain
    values, [read_csv] returns the rows of the table, in order, each under
    the names of the header. *)
Theorem read_csv_table fname w names (table : list (list string)) :
  file_text fname w = Some (csv_text names table) ->
  names <> [] ->
  Forall (fun name => valid_field_name name = true) names ->
  NoDup (nfkc <$> names) ->
  Forall (fun entries => length entries = length names /\
                         Forall (fun v => plain v = true) entries) table ->
  read_csv fname w
  = Ok (map (fun entries => {| cls := class_of names; items := entries |}) table).
Proof.
  intros Ht Hne Hvalid Hnd Htable. rewrite (read_csv_unfold _ _ _ Ht).
  assert (Hplain : Forall (Forall (fun v => plain v = true)) table).
  { eapply Forall_impl; [exact Htable|]. now intros entries [_ ?]. }
  assert (Hnames : Forall (fun name => occurs lf name = false /\
                                       occurs dquote name = false) names).
  { eapply Forall_impl; [exact Hvalid|]. intros name Hn.
    apply valid_field_name_plain in Hn as (_ & Hsp & _ & Hdq).
    split; [now apply spaceless_no_lf | exact Hdq]. }
  assert (Hlf : occurs lf (String.concat "," names) = false).
  { apply occurs_concat; [reflexivity|].
    eapply Forall_impl; [exact Hnames|]. now intros name [? _]. }
  assert (Hdq : occurs dquote (csv_line names) = false).
  { unfold csv_line. rewrite occurs_append, occurs_concat; [reflexivity..|].
    eapply Forall_impl; [exact Hnames|]. now intros name [_ ?]. }
  assert (Hh : header (csv_text names table) = csv_line names).
  { unfold header, csv_text. unfold csv_line at 1.
    rewrite (take_line_csv _ _ Hlf). cbn [fst]. now apply replace_absent. }
  assert (Hd : data_lines (csv_text names table) = map csv_line table).
  { unfold data_lines, csv_text. unfold csv_line at 1.
    rewrite (take_line_csv _ _ Hlf). cbn [snd]. now apply splitlines_csv_lines. }
  rewrite Hh, Hd, namedtuple_accepts; rewrite field_names_csv_line by exact Hvalid;
    [|exact Hvalid | exact Hnd].
  cbn [bind].
  assert (Hw : Forall (fun entries => words (csv_line entries) = entries) table).
  { eapply Forall_impl; [exact Htable|]. intros entries [Hlen Hp].
    apply words_csv_line; [|exact Hp]. intros ->. destruct names; [congruence | discriminate]. }
  rewrite rows_Ok.
  - f_equal. rewrite map_map. apply map_ext_Forall.
    eapply Forall_impl; [exact Hw|]. intros entries He. unfold row_of. now rewrite He.
  - apply Forall_fmap. rewrite Forall_forall in *. intros entries He.
    unfold fits, compose. rewrite (Hw _ He). now destruct (Htable _ He).
Qed.

(** *** Entries between double quotes *)

Lemma occurs_written c (entry : bool * string) :
  c <> dquote -> occurs c (written entry) = occurs c entry.2.
Proof.
  intros Hne. destruct entry as [[] v]; cbn [written fst snd]; [|reflexivity].
  cbn [occurs]. rewrite occurs_append. cbn [occurs].
  destruct (Ascii.eqb_spec dquote c) as [E|_]; [now subst c|].
  cbn. now rewrite !orb_false_r.
Qed.

Lemma remove_quotes_written (entry : bool * string) :
  occurs dquote entry.2 = false ->
  Str.replace dquote EmptyString (written entry) = entry.2.
Proof.
  intros H. destruct entry as [[] v]; cbn [written fst snd] in *.
  - cbn [Str.replace]. change (Ascii.eqb dquote dquote) with true. cbv iota.
    change (EmptyString +:+ ?x) with x.
    rewrite replace_append, (replace_absent _ _ _ H). cbn. apply append_empty_r.
  - now apply replace_absent.
Qed.

Lemma remove_quotes_written_entries (entries : list (bool * string)) :
  Forall (fun entry => occurs dquote entry.2 = false) entries ->
  Str.replace dquote EmptyString (written_entries entries)
  = String.concat "," (map snd entries).
Proof.
  unfold written_entries. induction 1 as [|e entries He Hes IH]; [reflexivity|].
  destruct entries as [|e' entries].
  - cbn. now apply remove_quotes_written.
  - change (String.concat "," (map written (e :: e' :: entries)))
      with (written e +:+ String "," (String.concat "," (map written (e' :: entries)))).
    change (String.concat "," (map snd (e :: e' :: entries)))
      with (e.2 +:+ String "," (String.concat "," (map snd (e' :: entries)))).
    rewrite replace_append, (remove_quotes_written _ He). f_equal.
    cbn [Str.replace]. change (Ascii.eqb "," dquote) with false. cbv iota.
    f_equal. exact IH.
Qed.

Lemma written_entries_no_lf (entries : list (bool * string)) :
  Forall (fun entry => occurs lf entry.2 = false) entries ->
  occurs lf (written_entries entries) = false.
Proof.
  intros H. apply occurs_concat; [reflexivity|]. apply Forall_fmap.
  eapply Forall_impl; [exact H|]. intros e He. cbn.
  rewrite occurs_written; [exact He | discriminate].
Qed.



Lemma take_line_absent s : occurs lf s = false -> take_line s = (s, EmptyString).
Proof.
  induction s as [|a s IH]; [reflexivity|]. simpl.
  intros [-> Hs]%orb_false_elim. now rewrite (IH Hs).
Qed.

(** The names of a header line that is not terminated. *)
Lemma field_names_joined names :
  Forall (fun name => valid_field_name name = true) names ->
  field_names (String.concat "," names) = names.
Proof.
  unfold field_names.
  induction 1 as [|t names Ht Hts IH]; [reflexivity|].
  apply valid_field_name_plain in Ht as (Hne & Hsp & Hco & _).
  destruct names as [|t' names].
  - cbn [String.concat]. rewrite (replace_absent _ _ _ Hco).
    clear -Hne Hsp. induction t as [|a t IHt]; [congruence|].
    cbn [spaceless Str.forallb_string] in Hsp. apply andb_prop in Hsp as [Ha Ht].
    apply negb_true_iff in Ha. cbn [Str.split_whitespace]. rewrite Ha.
    destruct t as [|b t]; [reflexivity|].
    assert (Hb : Str.isspace b = false).
    { cbn [Str.forallb_string] in Ht. apply andb_prop in Ht as [Hb _].
      now apply negb_true_iff in Hb. }
    rewrite Hb, IHt; [reflexivity | discriminate | exact Ht].
  - change (String.concat "," (t :: t' :: names))
      with (t +:+ String "," (String.concat "," (t' :: names))).
    rewrite replace_append, (replace_absent _ _ _ Hco).
    cbn [Str.replace]. change (Ascii.eqb "," ",") with true. cbv iota.
    change (" " +:+ ?x) with (String " " x).
    rewrite split_whitespace_token by (assumption || reflexivity).
    now rewrite IH.
Qed.

End Tables.

(** ** The properties of [read_csv] *)

Section Claims.

Implicit Types (fname text line name : string) (w : world) (Row : namedtuple_class)
  (data : list namedtuple_obj) (row : namedtuple_obj).

(** C1. Reading the example file (the header
    [first_name,second_name,age,height,gender] and the four data rows)
    returns exactly 4 records; record 0 has exactly 5 fields; its field
    [age], read by name, and its field at index 2 are both the text "59". *)
Theorem read_csv_example_file fname w :
  file_text fname w = Some contents ->
  exists data row,
    read_csv fname w = Ok data /\ length data = 4 /\
    list_getitem data 0 = Ok row /\ len row = 5 /\
    getattr row "age" = Ok "59" /\ getitem row 2 = Ok "59".
Proof.
  intros H. destruct (read_example _ _ H) as (Row & Hf & Hage & _ & ->).
  eexists _, _. split; [reflexivity|]. split; [reflexivity|].
  split; [reflexivity|]. split; [reflexivity|].
  split; [|reflexivity]. unfold getattr. cbn [cls]. now rewrite Hage.
Qed.

Lemma read_csv_example_file_witness :
  file_text "trivial_test_example.csv" example_world = Some contents /\
  exists data row,
    read_csv "trivial_test_example.csv" example_world = Ok data /\ length data = 4 /\
    list_getitem data 0 = Ok row /\ len row = 5 /\
    getattr row "age" = Ok "59" /\ getitem row 2 = Ok "59".
Proof.
  split; [reflexivity|].
  apply (read_csv_example_file "trivial_test_example.csv" example_world). reflexivity.
Defined.

(** The unit test of the script passes, whatever the files held before
    the example was written. *)
Lemma test_read_csv_passes w : fst (test_read_csv w) = Ok tt.
Proof.
  unfold test_read_csv.
  destruct (read_example "trivial_test_example.csv"
              (create_example_csv_file "trivial_test_example.csv" w)
              (file_text_example _ _)) as (Row & Hf & Hage & _ & ->).
  cbn. unfold getattr. cbn [cls]. rewrite Hage. reflexivity.
Qed.



(** What [read_csv] returned, read backwards: the file was there, its
    header made a class, and the records are those of the data lines. *)
Lemma read_csv_inv fname w data :
  read_csv fname w = Ok data ->
  exists text Row,
    file_text fname w = Some text /\
    namedtuple "Row" (header text) = Ok Row /\
    Forall (fits Row) (data_lines text) /\
    data = map (row_of Row) (data_lines text).
Proof.
  intros H. destruct (file_text fname w) as [text|] eqn:Ht.
  - rewrite (read_csv_unfold _ _ _ Ht) in H.
    destruct (namedtuple "Row" (header text)) as [Row|e] eqn:HRow; [|discriminate].
    cbn [bind] in H. apply rows_inv in H as [Hfits ->]. now exists text, Row.
  - rewrite (read_csv_missing _ _ Ht) in H. discriminate.
Qed.

Lemma getitem_nat row i v :
  items row !! i = Some v -> getitem row (Z.of_nat i) = Ok v.
Proof.
  intros H. unfold getitem.
  destruct (Z.ltb_spec (Z.of_nat i) 0) as [?|_]; [lia|].
  destruct (Z.ltb_spec (Z.of_nat i) 0) as [?|_]; [lia|].
  now rewrite Nat2Z.id, H.
Qed.

(** C3. For every record [read_csv] returns and every field index [i]
    whose field name is [name], reading the record by that name and by
    that position gives the same text value. *)
Theorem read_csv_name_index fname w data row i name :
  read_csv fname w = Ok data ->
  row ∈ data ->
  _fields (cls row) !! i = Some name ->
  exists v, getattr row name = Ok v /\ getitem row (Z.of_nat i) = Ok v.
Proof.
  intros (text & Row & _ & HRow & Hfits & ->)%read_csv_inv Hrow Hi.
  apply list_elem_of_fmap in Hrow as (line & -> & Hline).
  rewrite Forall_forall in Hfits. specialize (Hfits _ Hline).
  apply namedtuple_Ok in HRow as (_ & Hf & Hg & _ & Hnd).
  cbn [row_of cls] in *. rewrite Hf in Hi.
  destruct (lookup_lt_is_Some_2 (words line) i) as [v Hv].
  { rewrite Hfits, Hf. now apply lookup_lt_Some in Hi. }
  exists v. unfold getattr. cbn [cls row_of].
  rewrite Hg, (class_namespace_lookup 0 _ _ i name Hnd Hi). cbn.
  split; now apply getitem_nat.
Qed.

Lemma read_csv_name_index_witness :
  read_csv "trivial_test_example.csv" example_world
    = Ok (map (row_of example_Row) (data_lines contents)) /\
  row_of example_Row ("Fred,Bloggs,59,1.95,male" +:+ nl)
    ∈ map (row_of example_Row) (data_lines contents) /\
  _fields (cls (row_of example_Row ("Fred,Bloggs,59,1.95,male" +:+ nl))) !! 2 = Some "age" /\
  exists v,
    getattr (row_of example_Row ("Fred,Bloggs,59,1.95,male" +:+ nl)) "age" = Ok v /\
    getitem (row_of example_Row ("Fred,Bloggs,59,1.95,male" +:+ nl)) (Z.of_nat 2) = Ok v.
Proof.
  assert (H1 : read_csv "trivial_test_example.csv" example_world
               = Ok (map (row_of example_Row) (data_lines contents))) by reflexivity.
  assert (H2 : row_of example_Row ("Fred,Bloggs,59,1.95,male" +:+ nl)
               ∈ map (row_of example_Row) (data_lines contents)) by (simpl; left).
  split; [exact H1|]. split; [exact H2|]. split; [reflexivity|].
  exact (read_csv_name_index _ _ _ _ 2 "age" H1 H2 eq_refl).
Defined.

(** C6. If a data line has a number of comma-separated tokens other than
    the number of field names, [read_csv] fails, with the error of a call
    with the wrong number of arguments, and returns no partial result: the
    records of the earlier lines are not returned. *)
Theorem read_csv_field_count_mismatch fname w text Row :
  file_text fname w = Some text ->
  namedtuple "Row" (header text) = Ok Row ->
  Exists (fun line => ~ fits Row line) (data_lines text) ->
  (exists given, given <> length (_fields Row) /\
     read_csv fname w = Raise (TypeError (length (_fields Row)) given)) /\
  forall data, read_csv fname w <> Ok data.
Proof.
  intros Ht HRow Hbad. rewrite (read_csv_unfold _ _ _ Ht), HRow. cbn [bind].
  destruct (rows_Raise Row _ Hbad) as (given & Hg & ->).
  split; [now exists given | discriminate].
Qed.

Lemma read_csv_field_count_mismatch_witness :
  file_text "short.csv" (world_with "short.csv" short_line_csv) = Some short_line_csv /\
  namedtuple "Row" (header short_line_csv) = Ok (class_of ["a"; "b"]) /\
  Exists (fun line => ~ fits (class_of ["a"; "b"]) line) (data_lines short_line_csv) /\
  (exists given, given <> 2 /\
     read_csv "short.csv" (world_with "short.csv" short_line_csv)
     = Raise (TypeError 2 given)) /\
  forall data, read_csv "short.csv" (world_with "short.csv" short_line_csv) <> Ok data.
Proof.
  assert (H1 : file_text "short.csv" (world_with "short.csv" short_line_csv)
               = Some short_line_csv) by reflexivity.
  assert (H2 : namedtuple "Row" (header short_line_csv) = Ok (class_of ["a"; "b"]))
    by reflexivity.
  assert (H3 : Exists (fun line => ~ fits (class_of ["a"; "b"]) line)
                 (data_lines short_line_csv)).
  { apply Exists_cons_tl, Exists_cons_hd. unfold fits. simpl. lia. }
  split; [exact H1|]. split; [exact H2|]. split; [exact H3|].
  exact (read_csv_field_count_mismatch _ _ _ _ H1 H2 H3).
Defined.

(** C7. Round trip: after [create_example_csv_file] has written the
    example table, [read_csv] on that file returns as many records as data
    lines were written, the header not counted: 4. *)
Theorem read_csv_round_trip fname w :
  exists data,
    read_csv fname (create_example_csv_file fname w) = Ok data /\
    length data = length (splitlines contents) - 1 /\
    length data = 4.
Proof.
  destruct (read_example _ _ (file_text_example fname w)) as (Row & _ & _ & _ & ->).
  eexists. split; [reflexivity|]. split; reflexivity.
Qed.

(** C8. For the 4 records read back from the example file, the mean of
    the field [height], each text converted to a number, is 1.81 when
    rounded to 2 decimal places: so it is for the binary64 numbers the
    script computes with, and in exact rational arithmetic the mean is
    exactly (1.95 + 1.86 + 1.76 + 1.67) / 4 = 1.81. *)
Theorem mean_height_example fname w :
  exists table m v q,
    read_csv fname (create_example_csv_file fname w) = Ok table /\
    length table = 4 /\
    mean_height table = Ok m /\
    exact_value m = Some v /\
    hundredths v = 181%Z /\
    exact_mean_height table = Ok q /\
    (q == (1.95 + 1.86 + 1.76 + 1.67) / 4)%Q /\
    (q == 1.81)%Q /\
    hundredths q = 181%Z.
Proof.
  destruct (read_example _ _ (file_text_example fname w)) as (Row & _ & _ & Hh & ->).
  assert (Hget : forall args,
    getattr {| cls := Row; items := args |} "height"
    = getitem {| cls := Row; items := args |} 3).
  { intros args. unfold getattr. cbn [cls]. now rewrite Hh. }
  eexists _, _, _, _. split; [reflexivity|]. split; [reflexivity|].
  split; [|split; [|split; [|split]]].
  - unfold mean_height. cbn [map comprehension]. rewrite !Hget. vm_compute. reflexivity.
  - vm_compute. reflexivity.
  - vm_compute. reflexivity.
  - unfold exact_mean_height. cbn [map comprehension]. rewrite !Hget. vm_compute. reflexivity.
  - repeat split.
Qed.

(** C10, as the code has it. For a file that holds only a header line,
    terminated or not, and no data line, [read_csv] succeeds and returns
    the empty list when the header lists, separated by commas, names the
    class constructor accepts: valid, and distinct once normalised. *)
Theorem read_csv_header_only fname w (names : list (bool * string)) (terminated : bool) :
  file_text fname w
  = Some (written_entries names +:+ (if terminated then nl else EmptyString)) ->
  Forall (fun name => valid_field_name name = true) (map snd names) ->
  NoDup (nfkc <$> map snd names) ->
  read_csv fname w = Ok [].
Proof.
  intros Ht Hvalid Hnd.
  assert (Hnames : Forall (fun entry => occurs lf entry.2 = false /\
                                        occurs dquote entry.2 = false) names).
  { apply Forall_fmap in Hvalid. eapply Forall_impl; [exact Hvalid|]. intros e He.
    apply valid_field_name_plain in He as (_ & Hsp & _ & Hdq).
    split; [now apply spaceless_no_lf | exact Hdq]. }
  assert (Hlf : occurs lf (written_entries names) = false).
  { apply written_entries_no_lf. eapply Forall_impl; [exact Hnames|]. now intros e [? _]. }
  assert (Hdq : Forall (fun entry => occurs dquote entry.2 = false) names).
  { eapply Forall_impl; [exact Hnames|]. now intros e [_ ?]. }
  rewrite (read_csv_unfold _ _ _ Ht). unfold header, data_lines.
  destruct terminated.
  - rewrite <- (append_empty_r (written_entries names +:+ nl)).
    rewrite (take_line_csv _ _ Hlf). cbn [fst snd splitlines].
    rewrite replace_append, (remove_quotes_written_entries _ Hdq).
    change (Str.replace dquote EmptyString nl) with nl. fold (csv_line (map snd names)).
    rewrite namedtuple_accepts; rewrite field_names_csv_line by exact Hvalid;
      [reflexivity | exact Hvalid | exact Hnd].
  - rewrite append_empty_r, (take_line_absent _ Hlf). cbn [fst snd splitlines].
    rewrite (remove_quotes_written_entries _ Hdq).
    rewrite namedtuple_accepts; rewrite field_names_joined by exact Hvalid;
      [reflexivity | exact Hvalid | exact Hnd].
Qed.

Lemma read_csv_header_only_witness :
  file_text "header.csv"
    (world_with "header.csv" (written_entries [(false, "a"); (true, "b")] +:+ nl))
  = Some (written_entries [(false, "a"); (true, "b")] +:+ (if true then nl else EmptyString)) /\
  Forall (fun name => valid_field_name name = true) (map snd [(false, "a"); (true, "b")]) /\
  NoDup (nfkc <$> map snd [(false, "a"); (true, "b")]) /\
  read_csv "header.csv"
    (world_with "header.csv" (written_entries [(false, "a"); (true, "b")] +:+ nl))
  = Ok [].
Proof.
  assert (H1 : file_text "header.csv"
      (world_with "header.csv" (written_entries [(false, "a"); (true, "b")] +:+ nl))
    = Some (written_entries [(false, "a"); (true, "b")]
            +:+ (if true then nl else EmptyString))) by reflexivity.
  assert (H2 : Forall (fun name => valid_field_name name = true)
                 (map snd [(false, "a"); (true, "b")])) by (repeat constructor).
  assert (H3 : NoDup (nfkc <$> map snd [(false, "a"); (true, "b")])).
  { apply (bool_decide_unpack _). vm_compute. exact I. }
  split; [exact H1|]. split; [exact H2|]. split; [exact H3|].
  exact (read_csv_header_only _ _ _ true H1 H2 H3).
Defined.

(** C10 fails as stated: a file that holds the header line [name,class]
    and no data line makes [read_csv] raise [ValueError]. *)
Lemma keyword_header_only :
  data_lines ("name,class" +:+ nl) = [] /\
  read_csv "kw.csv" (world_with "kw.csv" ("name,class" +:+ nl))
  = Raise (ValueError (IsKeyword "class")).
Proof. split; reflexivity. Qed.

Lemma rstrip_newlines s k : Str.rstrip lf (s +:+ newlines k) = Str.rstrip lf s.
Proof.
  revert s. induction k as [|k IH]; intros s; [now rewrite append_empty_r|].
  change (newlines (S k)) with (nl +:+ newlines k).
  now rewrite <- append_assoc, IH, rstrip_snoc.
Qed.

Lemma remove_dquote_newlines k : Str.replace dquote EmptyString (newlines k) = newlines k.
Proof. induction k as [|k IH]; [reflexivity|]. cbn. f_equal. exact IH. Qed.

Lemma endswith_occurs c s : endswith c s = true -> occurs c s = true.
Proof.
  intros [s' ->]%endswith_inv. rewrite occurs_append. simpl.
  rewrite Ascii.eqb_refl. apply orb_true_r.
Qed.

(** Beyond the lines of a file: [rstrip] takes every newline off the end
    of a text. *)
Lemma words_newlines l k : words (l +:+ newlines k) = words l.
Proof.
  unfold words. now rewrite replace_append, remove_dquote_newlines, rstrip_newlines.
Qed.

(** C4. The first line and the data lines, end to end, are the text of
    the file, and a data line has no newline character except, possibly,
    as its last character. For every data line, [read_csv] strips exactly
    one trailing newline character before it splits the line on commas:
    what is left of the line, its quotes removed, is the line without that
    one character when it ends with a newline, and the whole line when it
    does not. *)
Theorem words_strips_newlines text line :
  line ∈ data_lines text ->
  fst (take_line text) +:+ String.concat EmptyString (data_lines text) = text /\
  is_line line /\
  words line = spec_words line /\
  Str.replace dquote EmptyString line
  = Str.rstrip lf (Str.replace dquote EmptyString line)
    +:+ (if endswith lf line then nl else EmptyString).
Proof.
  intros Hl. split.
  { unfold data_lines. rewrite splitlines_concat. apply take_line_append. }
  apply splitlines_is_line in Hl. split; [exact Hl|]. split; [now apply words_line|].
  destruct Hl as [_ (body & Hb & Hl)].
  assert (Hb' : occurs lf (Str.replace dquote EmptyString body) = false).
  { rewrite occurs_remove; [exact Hb | discriminate]. }
  destruct Hl as [->| ->].
  - rewrite (rstrip_absent _ _ Hb').
    destruct (endswith lf body) eqn:E; [|now rewrite append_empty_r].
    apply endswith_occurs in E. congruence.
  - assert (He : endswith lf (body +:+ nl) = true) by apply (endswith_snoc lf body).
    assert (Hr : Str.rstrip lf (Str.replace dquote EmptyString body +:+ nl)
                 = Str.replace dquote EmptyString body).
    { unfold nl. rewrite rstrip_snoc. now apply rstrip_absent. }
    rewrite He, replace_append. change (Str.replace dquote EmptyString nl) with nl.
    now rewrite Hr.
Qed.

Lemma words_strips_newlines_witness :
  ("Fred,Bloggs,59,1.95,male" +:+ nl) ∈ data_lines contents /\
  fst (take_line contents) +:+ String.concat EmptyString (data_lines contents) = contents /\
  is_line ("Fred,Bloggs,59,1.95,male" +:+ nl) /\
  words ("Fred,Bloggs,59,1.95,male" +:+ nl) = spec_words ("Fred,Bloggs,59,1.95,male" +:+ nl) /\
  Str.replace dquote EmptyString ("Fred,Bloggs,59,1.95,male" +:+ nl)
  = Str.rstrip lf (Str.replace dquote EmptyString ("Fred,Bloggs,59,1.95,male" +:+ nl))
    +:+ (if endswith lf ("Fred,Bloggs,59,1.95,male" +:+ nl) then nl else EmptyString).
Proof.
  assert (H : ("Fred,Bloggs,59,1.95,male" +:+ nl) ∈ data_lines contents) by (simpl; left).
  split; [exact H|]. exact (words_strips_newlines contents _ H).
Defined.

(** C5, as the code has it. [read_csv] hands the header line to the class
    constructor with its newline character, but the constructor splits it
    on commas and on white space: for a header line that ends with a
    newline character, no name of the field-name list holds a newline or
    any white space, and the last name does not end with one. *)
Theorem header_names_without_newline text Row :
  endswith lf (fst (take_line text)) = true ->
  namedtuple "Row" (header text) = Ok Row ->
  endswith lf (header text) = true /\
  Forall (fun name => spaceless name = true /\ occurs lf name = false) (_fields Row) /\
  forall name, last (_fields Row) = Some name -> endswith lf name = false.
Proof.
  intros [h Hh]%endswith_inv (_ & Hf & _)%namedtuple_Ok.
  assert (Hall : Forall (fun name => spaceless name = true /\ occurs lf name = false)
                   (_fields Row)).
  { rewrite Hf. unfold field_names.
    eapply Forall_impl; [apply split_whitespace_tokens|].
    intros name [_ Hs]. split; [exact Hs | now apply spaceless_no_lf]. }
  split; [|split; [exact Hall|]].
  - unfold header. rewrite Hh, replace_append. apply endswith_snoc.
  - intros name Hlast. rewrite Forall_forall in Hall.
    destruct (Hall name) as [_ Hno].
    { apply last_Some in Hlast as [l' ->]. apply elem_of_app. right. left. }
    destruct (endswith lf name) eqn:E; [|reflexivity].
    apply endswith_occurs in E. congruence.
Qed.

Lemma header_names_without_newline_witness :
  endswith lf (fst (take_line contents)) = true /\
  namedtuple "Row" (header contents) = Ok example_Row /\
  endswith lf (header contents) = true /\
  Forall (fun name => spaceless name = true /\ occurs lf name = false) (_fields example_Row) /\
  forall name, last (_fields example_Row) = Some name -> endswith lf name = false.
Proof.
  assert (H1 : endswith lf (fst (take_line contents)) = true) by reflexivity.
  assert (H2 : namedtuple "Row" (header contents) = Ok example_Row) by reflexivity.
  split; [exact H1|]. split; [exact H2|].
  exact (header_names_without_newline contents example_Row H1 H2).
Defined.

(** C5 fails as stated: the header line of the example ends with a
    newline character, and the last field name is [gender], without it. *)
Lemma example_last_field_name :
  endswith lf (fst (take_line contents)) = true /\
  namedtuple "Row" (header contents) = Ok example_Row /\
  last (_fields example_Row) = Some "gender" /\
  endswith lf "gender" = false.
Proof. repeat split. Qed.

(** C9, as the code has it. The field names are what the class
    constructor takes from the header, splitting it on commas and on white
    space, so none of them holds white space. Whenever one of them is not
    an identifier, is a keyword or starts with an underscore, [read_csv]
    fails with [ValueError] while processing the header: every data line
    is still unread. *)
Theorem read_csv_invalid_field_name fname w text name :
  file_text fname w = Some text ->
  name ∈ field_names (header text) ->
  valid_field_name name = false ->
  Forall (fun n => spaceless n = true) (field_names (header text)) /\
  exists why,
    read_csv fname w = Raise (ValueError why) /\
    read_csv_body {| unread := text |}
    = (Raise (ValueError why), {| unread := snd (take_line text) |}) /\
    String.concat EmptyString (data_lines text) = snd (take_line text).
Proof.
  intros Ht Hin Hinv. split.
  { unfold field_names. eapply Forall_impl; [apply split_whitespace_tokens|].
    now intros n [_ ?]. }
  destruct (namedtuple_invalid "Row" _ _ Hin Hinv) as [why Hwhy].
  exists why. rewrite (read_csv_unfold _ _ _ Ht), read_csv_body_unfold. cbn [unread].
  rewrite Hwhy. split; [reflexivity|]. split; [reflexivity|]. apply splitlines_concat.
Qed.

Lemma read_csv_invalid_field_name_witness :
  file_text "kw.csv" (world_with "kw.csv" keyword_name_csv) = Some keyword_name_csv /\
  "class" ∈ field_names (header keyword_name_csv) /\
  valid_field_name "class" = false /\
  Forall (fun n => spaceless n = true) (field_names (header keyword_name_csv)) /\
  exists why,
    read_csv "kw.csv" (world_with "kw.csv" keyword_name_csv) = Raise (ValueError why) /\
    read_csv_body {| unread := keyword_name_csv |}
    = (Raise (ValueError why), {| unread := snd (take_line keyword_name_csv) |}) /\
    String.concat EmptyString (data_lines keyword_name_csv) = snd (take_line keyword_name_csv).
Proof.
  assert (H1 : file_text "kw.csv" (world_with "kw.csv" keyword_name_csv)
               = Some keyword_name_csv) by reflexivity.
  assert (H2 : "class" ∈ field_names (header keyword_name_csv)) by (simpl; right; left).
  split; [exact H1|]. split; [exact H2|]. split; [reflexivity|].
  exact (read_csv_invalid_field_name _ _ _ "class" H1 H2 eq_refl).
Defined.

(** C9 fails as stated: a header entry with a space in it is not an
    identifier, yet [read_csv] accepts it, as two field names, and reads
    the data line that has three tokens. *)
Lemma spaced_name_accepted :
  "first name" ∈ spec_field_names (fst (take_line spaced_name_csv)) /\
  valid_field_name "first name" = false /\
  read_csv "people.csv" (world_with "people.csv" spaced_name_csv)
  = Ok [ {| cls := class_of ["first"; "name"; "age"]; items := ["Fred"; "Bloggs"; "59"] |} ].
Proof. split; [left|]. split; reflexivity. Qed.

End Claims.

(** ** Further properties of the script *)

Section Splitting.

Implicit Types (s t : string) (c d : ascii).

Lemma count_append c s t : count c (s +:+ t) = count c s + count c t.
Proof. induction s as [|a s IH]; simpl; [reflexivity|]. rewrite IH. lia. Qed.

Lemma count_remove c a s :
  a <> c -> count c (Str.replace a EmptyString s) = count c s.
Proof.
  intros Hne. induction s as [|b s IH]; simpl; [reflexivity|].
  destruct (Ascii.eqb_spec b a) as [->|Hb]; simpl; rewrite IH.
  - destruct (Ascii.eqb_spec a c); [contradiction | reflexivity].
  - reflexivity.
Qed.

Lemma count_repeat c d k :
  d <> c -> count c (string_of_list_ascii (repeat d k)) = 0.
Proof.
  intros Hne. induction k as [|k IH]; simpl; [reflexivity|].
  rewrite IH. destruct (Ascii.eqb_spec d c); [contradiction | reflexivity].
Qed.

Lemma count_rstrip c d s : d <> c -> count c (Str.rstrip d s) = count c s.
Proof.
  intros Hne. destruct (rstrip_spec d s) as [k Hk].
  rewrite Hk at 2. rewrite count_append, count_repeat by exact Hne. lia.
Qed.

Lemma occurs_rstrip c d s : occurs c s = false -> occurs c (Str.rstrip d s) = false.
Proof.
  intros H. destruct (rstrip_spec d s) as [k Hk]. rewrite Hk, occurs_append in H.
  now apply orb_false_elim in H as [? _].
Qed.

Lemma occurs_removed c s : occurs c (Str.replace c EmptyString s) = false.
Proof.
  induction s as [|a s IH]; simpl; [reflexivity|].
  destruct (Ascii.eqb a c) eqn:E; simpl; [exact IH | now rewrite E, IH].
Qed.

(** [split] gives one token more than there are separators, none of the
    tokens holds the separator, and joining them gives the text back. *)
Lemma split_length c s : length (Str.split c s) = S (count c s).
Proof.
  induction s as [|a s IH]; simpl; [reflexivity|].
  destruct (Ascii.eqb a c); simpl; [now rewrite IH|].
  destruct (Str.split c s); simpl in *; lia.
Qed.

Lemma split_tokens c d s :
  Forall (fun t => occurs c t = false /\ (occurs d s = false -> occurs d t = false))
    (Str.split c s).
Proof.
  induction s as [|a s IH]; simpl.
  - now repeat constructor.
  - destruct (Ascii.eqb_spec a c) as [->|Hne].
    + constructor; [now split|]. eapply Forall_impl; [exact IH|].
      intros t [Ht Hd]. split; [exact Ht|]. now intros [_ ?]%orb_false_elim; auto.
    + assert (Ha : Ascii.eqb a c = false) by now apply Ascii.eqb_neq.
      destruct (Str.split c s) as [|w ws].
      * constructor; [|constructor]. simpl. rewrite Ha. split; [reflexivity|].
        intros [-> _]%orb_false_elim. reflexivity.
      * apply Forall_cons in IH as [[Hw Hd] Hws]. constructor.
        -- simpl. rewrite Ha, Hw. split; [reflexivity|].
           intros [-> Hs]%orb_false_elim. now rewrite (Hd Hs).
        -- eapply Forall_impl; [exact Hws|].
           intros t [Ht Hd']. split; [exact Ht|]. now intros [_ ?]%orb_false_elim; auto.
Qed.

Lemma split_join c s : String.concat (String c EmptyString) (Str.split c s) = s.
Proof.
  assert (Hc : forall t ts, ts <> [] ->
            String.concat (String c EmptyString) (t :: ts)
            = t +:+ String c (String.concat (String c EmptyString) ts)).
  { intros t [|t' ts] H; [congruence | reflexivity]. }
  assert (Hne : forall s', Str.split c s' <> []).
  { intros s' H. apply (f_equal length) in H. rewrite split_length in H. discriminate. }
  induction s as [|a s IH]; simpl; [reflexivity|].
  destruct (Ascii.eqb_spec a c) as [->|_].
  - rewrite Hc by apply Hne. simpl. now rewrite IH.
  - specialize (Hne s). destruct (Str.split c s) as [|w ws]; [congruence|].
    destruct ws as [|w' ws]; simpl in *; now rewrite <- IH.
Qed.

(** The tokens of a line: one more than its commas, and, joined again,
    the line without its quotes and trailing newlines. *)
Lemma words_length line : length (words line) = S (count "," line).
Proof.
  unfold words. rewrite split_length, count_rstrip, count_remove; [reflexivity|..]; discriminate.
Qed.

Lemma words_join line :
  String.concat "," (words line) = Str.rstrip lf (Str.replace dquote EmptyString line).
Proof. apply split_join. Qed.

End Splitting.

Section Failures.

Implicit Types (fname text line name : string) (w : world) (Row : namedtuple_class).

Lemma check_arguments_Raise seen names e :
  check_arguments seen names = Raise e -> exists name, e = SyntaxError name.
Proof.
  revert seen. induction names as [|name names IH]; intros seen; simpl; [discriminate|].
  destruct (mem (nfkc name) seen); [intros [= <-]; eauto | apply IH].
Qed.

(** [namedtuple] raises nothing but [ValueError], from its two loops, and
    [SyntaxError], from the compilation of [__new__]. *)
Lemma namedtuple_Raise tn h e :
  namedtuple tn h = Raise e ->
  (exists why, e = ValueError why) \/ (exists name, e = SyntaxError name).
Proof.
  unfold namedtuple.
  destruct (check_names _) as [[]|e1] eqn:E1; simpl.
  - destruct (check_fields _ _) as [[]|e2] eqn:E2; simpl.
    + destruct (check_arguments _ _) as [[]|e3] eqn:E3; simpl; [discriminate|].
      intros [= <-]. right. eapply check_arguments_Raise, E3.
    + intros [= <-]. left. eapply check_fields_Raise, E2.
  - intros [= <-]. left. eapply check_names_Raise, E1.
Qed.

(** A header that repeats a name does not pass the two loops. *)
Lemma namedtuple_duplicate tn h :
  ~ NoDup (field_names h) -> exists why, namedtuple tn h = Raise (ValueError why).
Proof.
  intros Hdup. unfold namedtuple. fold (field_names h).
  destruct (check_names _) as [[]|e1] eqn:E1; simpl.
  - destruct (check_fields _ _) as [[]|e2] eqn:E2; simpl.
    + apply check_fields_Ok in E2 as (_ & Hnd & _). contradiction.
    + apply check_fields_Raise in E2 as [why ->]. eauto.
  - apply check_names_Raise in E1 as [why ->]. eauto.
Qed.

Lemma rows_Raise_inv Row lines e :
  comprehension (fun line => new Row (words line)) lines = Raise e ->
  exists line, line ∈ lines /\ ~ fits Row line /\
    e = TypeError (length (_fields Row)) (length (words line)).
Proof.
  induction lines as [|line lines IH]; simpl; [discriminate|].
  destruct (decide (length (words line) = length (_fields Row))) as [Hl|Hl].
  - rewrite (new_Ok _ _ Hl). simpl.
    destruct (comprehension _ lines) as [rs|e'] eqn:E; simpl; [discriminate|].
    intros [= <-]. destruct (IH eq_refl) as (l & Hin & Hfit & ->).
    exists l. split; [now right | now split].
  - rewrite (new_Raise _ _ Hl). simpl. intros [= <-].
    exists line. split; [left | now split].
Qed.

End Failures.

Section Newlines.

Implicit Types (s text line : string).

Lemma universal_newlines_no_cr s : occurs cr (universal_newlines s) = false.
Proof.
  assert (H : forall n s, String.length s <= n -> occurs cr (universal_newlines s) = false).
  { induction n as [|n IH]; intros [|a t] Hlen; simpl in *; try reflexivity; [lia|].
    destruct (Ascii.eqb_spec a cr) as [->|Hne]; simpl.
    - destruct t as [|b t]; [reflexivity|].
      destruct (Ascii.eqb b lf); apply IH; simpl in *; lia.
    - rewrite IH by lia. now apply Ascii.eqb_neq in Hne as ->. }
  apply (H (String.length s)). lia.
Qed.

Lemma universal_newlines_absent s : occurs cr s = false -> universal_newlines s = s.
Proof.
  induction s as [|a s IH]; simpl; [reflexivity|].
  intros [-> Hs]%orb_false_elim. now rewrite (IH Hs).
Qed.

(** A text that is not empty is its first line followed by the others. *)
Lemma splitlines_take_line s :
  s <> EmptyString -> splitlines s = fst (take_line s) :: splitlines (snd (take_line s)).
Proof.
  induction s as [|a s IH]; [congruence|]. intros _. cbn [splitlines take_line].
  destruct (Ascii.eqb a lf); [reflexivity|].
  destruct s as [|b s]; [reflexivity|].
  rewrite IH by discriminate. now destruct (take_line (String b s)).
Qed.

Lemma occurs_lines c s line :
  occurs c s = false -> line ∈ splitlines s -> occurs c line = false.
Proof.
  intros Hs Hin. rewrite <- (splitlines_concat s) in Hs.
  induction (splitlines s) as [|l ls IH]; [inversion Hin|].
  rewrite concat_cons, occurs_append in Hs. apply orb_false_elim in Hs as [Hl Hls].
  apply elem_of_cons in Hin as [->|Hin]; [exact Hl | now apply IH].
Qed.

Lemma occurs_data_lines c text line :
  occurs c text = false -> line ∈ data_lines text -> occurs c line = false.
Proof.
  intros Ht. apply occurs_lines.
  rewrite <- (take_line_append text), occurs_append in Ht.
  now apply orb_false_elim in Ht as [_ ?].
Qed.

(** Once the quotes and the trailing newline are gone, a line holds no
    line feed. *)
Lemma line_stripped line :
  is_line line -> occurs lf (Str.rstrip lf (Str.replace dquote EmptyString line)) = false.
Proof.
  intros [_ (body & Hb & Hl)].
  assert (Hb' : occurs lf (Str.replace dquote EmptyString body) = false).
  { rewrite occurs_remove; [exact Hb | discriminate]. }
  destruct Hl as [->| ->].
  - now apply occurs_rstrip.
  - rewrite replace_append. change (Str.replace dquote EmptyString nl) with nl.
    unfold nl. rewrite rstrip_snoc. now apply occurs_rstrip.
Qed.

End Newlines.

Section Extras.

Implicit Types (fname text line name : string) (w : world) (Row : namedtuple_class)
  (data : list namedtuple_obj) (row : namedtuple_obj).

(** X2. Once the file has been opened and read as text, [read_csv] fails
    in two ways only: with the [ValueError] or [SyntaxError] that
    [namedtuple] raises on the header; or, the header accepted, with
    [TypeError] on a data line that has another number of tokens than the
    header has names. *)
Theorem read_csv_errors fname w text e :
  file_text fname w = Some text ->
  read_csv fname w = Raise e ->
  (namedtuple "Row" (header text) = Raise e /\
   ((exists why, e = ValueError why) \/ (exists name, e = SyntaxError name))) \/
  (exists Row line,
     namedtuple "Row" (header text) = Ok Row /\
     line ∈ data_lines text /\
     length (words line) <> length (_fields Row) /\
     e = TypeError (length (_fields Row)) (length (words line))).
Proof.
  intros Ht H. rewrite (read_csv_unfold _ _ _ Ht) in H.
  destruct (namedtuple "Row" (header text)) as [Row|e'] eqn:HRow; cbn [bind] in H.
  - right. apply rows_Raise_inv in H as (line & Hin & Hfit & ->).
    now exists Row, line.
  - left. injection H as ->. split; [reflexivity|]. eapply namedtuple_Raise, HRow.
Qed.

Lemma read_csv_errors_witness :
  file_text "short.csv" (world_with "short.csv" short_line_csv) = Some short_line_csv /\
  read_csv "short.csv" (world_with "short.csv" short_line_csv) = Raise (TypeError 2 1) /\
  ((namedtuple "Row" (header short_line_csv) = Raise (TypeError 2 1) /\
    ((exists why, TypeError 2 1 = ValueError why) \/
     (exists name, TypeError 2 1 = SyntaxError name))) \/
   (exists Row line,
      namedtuple "Row" (header short_line_csv) = Ok Row /\
      line ∈ data_lines short_line_csv /\
      length (words line) <> length (_fields Row) /\
      TypeError 2 1 = TypeError (length (_fields Row)) (length (words line)))).
Proof.
  assert (H1 : file_text "short.csv" (world_with "short.csv" short_line_csv)
               = Some short_line_csv) by reflexivity.
  assert (H2 : read_csv "short.csv" (world_with "short.csv" short_line_csv)
               = Raise (TypeError 2 1)) by reflexivity.
  split; [exact H1|]. split; [exact H2|]. exact (read_csv_errors _ _ _ _ H1 H2).
Defined.

(** X3. A header that gives a name twice is refused: [read_csv] fails
    with [ValueError], whatever the data lines are. *)
Theorem read_csv_duplicate_field_name fname w text :
  file_text fname w = Some text ->
  ~ NoDup (field_names (header text)) ->
  exists why, read_csv fname w = Raise (ValueError why).
Proof.
  intros Ht Hdup. rewrite (read_csv_unfold _ _ _ Ht).
  destruct (namedtuple_duplicate "Row" _ Hdup) as [why ->]. now exists why.
Qed.

Lemma read_csv_duplicate_field_name_witness :
  file_text "twice.csv" (world_with "twice.csv" repeated_name_csv) = Some repeated_name_csv /\
  ~ NoDup (field_names (header repeated_name_csv)) /\
  exists why,
    read_csv "twice.csv" (world_with "twice.csv" repeated_name_csv) = Raise (ValueError why).
Proof.
  assert (H1 : file_text "twice.csv" (world_with "twice.csv" repeated_name_csv)
               = Some repeated_name_csv) by reflexivity.
  assert (H2 : ~ NoDup (field_names (header repeated_name_csv))).
  { intros [Hnotin _]%NoDup_cons. apply Hnotin. simpl. right. left. }
  split; [exact H1|]. split; [exact H2|].
  exact (read_csv_duplicate_field_name _ _ _ H1 H2).
Defined.

(** X4. When the header is accepted, [read_csv] succeeds exactly when
    every data line has one comma less than the header has names, quoted
    or not: a comma between double quotes separates values like any
    other. *)
Theorem read_csv_succeeds_iff fname w text Row :
  file_text fname w = Some text ->
  namedtuple "Row" (header text) = Ok Row ->
  (exists data, read_csv fname w = Ok data) <->
  Forall (fun line => S (count "," line) = length (_fields Row)) (data_lines text).
Proof.
  intros Ht HRow. rewrite (read_csv_unfold _ _ _ Ht), HRow. cbn [bind].
  assert (Hiff : Forall (fun line => S (count "," line) = length (_fields Row)) (data_lines text)
                 <-> Forall (fits Row) (data_lines text)).
  { apply Forall_iff. intros line. unfold fits. now rewrite words_length. }
  rewrite Hiff. split.
  - intros [data H]. now apply rows_inv in H as [? _].
  - intros H. eexists. now apply rows_Ok.
Qed.

Lemma read_csv_succeeds_iff_witness :
  file_text "quoted.csv" (world_with "quoted.csv" quoted_csv) = Some quoted_csv /\
  namedtuple "Row" (header quoted_csv) = Ok (class_of ["name"; "town"]) /\
  ((exists data, read_csv "quoted.csv" (world_with "quoted.csv" quoted_csv) = Ok data) <->
   Forall (fun line => S (count "," line) = length (_fields (class_of ["name"; "town"])))
     (data_lines quoted_csv)).
Proof.
  assert (H1 : file_text "quoted.csv" (world_with "quoted.csv" quoted_csv) = Some quoted_csv)
    by reflexivity.
  assert (H2 : namedtuple "Row" (header quoted_csv) = Ok (class_of ["name"; "town"]))
    by reflexivity.
  split; [exact H1|]. split; [exact H2|].
  exact (read_csv_succeeds_iff _ _ _ _ H1 H2).
Defined.

(** X5. Nothing of a data line is lost but its quotes and its newline:
    the values of each record, joined by commas again, are the line the
    record comes from without its double quotes and trailing newline. *)
Theorem read_csv_join fname w text data :
  file_text fname w = Some text ->
  read_csv fname w = Ok data ->
  map (fun row => String.concat "," (items row)) data
  = map (fun line => Str.rstrip lf (Str.replace dquote EmptyString line)) (data_lines text).
Proof.
  intros Ht H. apply read_csv_inv in H as (text' & Row & Ht' & _ & _ & ->).
  rewrite Ht in Ht'. injection Ht' as <-.
  rewrite map_map. apply map_ext. intros line. apply words_join.
Qed.

Lemma read_csv_join_witness :
  file_text "trivial_test_example.csv" example_world = Some contents /\
  read_csv "trivial_test_example.csv" example_world
    = Ok (map (row_of example_Row) (data_lines contents)) /\
  map (fun row => String.concat "," (items row)) (map (row_of example_Row) (data_lines contents))
  = map (fun line => Str.rstrip lf (Str.replace dquote EmptyString line)) (data_lines contents).
Proof.
  assert (H1 : file_text "trivial_test_example.csv" example_world = Some contents)
    by reflexivity.
  assert (H2 : read_csv "trivial_test_example.csv" example_world
               = Ok (map (row_of example_Row) (data_lines contents))) by reflexivity.
  split; [exact H1|]. split; [exact H2|]. exact (read_csv_join _ _ _ _ H1 H2).
Defined.

(** X6. No value of a record [read_csv] returns holds a comma, a double
    quote, a line feed or a carriage return. *)
Theorem read_csv_values_clean fname w data row v :
  read_csv fname w = Ok data ->
  row ∈ data -> v ∈ items row ->
  occurs "," v = false /\ occurs dquote v = false /\
  occurs lf v = false /\ occurs cr v = false.
Proof.
  intros (text & Row & Ht & _ & _ & ->)%read_csv_inv Hrow Hv.
  apply list_elem_of_fmap in Hrow as (line & -> & Hline).
  cbn [row_of items] in Hv. unfold words in Hv.
  set (r := Str.rstrip lf (Str.replace dquote EmptyString line)) in *.
  assert (Hcr : occurs cr text = false).
  { unfold file_text in Ht. destruct (files w !! fname); [|discriminate].
    injection Ht as <-. apply universal_newlines_no_cr. }
  assert (Hr_cr : occurs cr r = false).
  { apply occurs_rstrip. rewrite occurs_remove by discriminate.
    eapply occurs_data_lines; eassumption. }
  assert (Hr_dq : occurs dquote r = false) by apply occurs_rstrip, occurs_removed.
  assert (Hr_lf : occurs lf r = false).
  { apply line_stripped. eapply splitlines_is_line, Hline. }
  pose proof (split_tokens "," dquote r) as Hdq.
  pose proof (split_tokens "," lf r) as Hlf.
  pose proof (split_tokens "," cr r) as Hc.
  rewrite Forall_forall in Hdq, Hlf, Hc.
  destruct (Hdq _ Hv) as [H1 H2], (Hlf _ Hv) as [_ H3], (Hc _ Hv) as [_ H4].
  auto.
Qed.

Lemma read_csv_values_clean_witness :
  read_csv "trivial_test_example.csv" example_world
    = Ok (map (row_of example_Row) (data_lines contents)) /\
  row_of example_Row ("Fred,Bloggs,59,1.95,male" +:+ nl)
    ∈ map (row_of example_Row) (data_lines contents) /\
  "1.95" ∈ items (row_of example_Row ("Fred,Bloggs,59,1.95,male" +:+ nl)) /\
  occurs "," "1.95" = false /\ occurs dquote "1.95" = false /\
  occurs lf "1.95" = false /\ occurs cr "1.95" = false.
Proof.
  assert (H1 : read_csv "trivial_test_example.csv" example_world
               = Ok (map (row_of example_Row) (data_lines contents))) by reflexivity.
  assert (H2 : row_of example_Row ("Fred,Bloggs,59,1.95,male" +:+ nl)
               ∈ map (row_of example_Row) (data_lines contents)) by (simpl; left).
  assert (H3 : "1.95" ∈ items (row_of example_Row ("Fred,Bloggs,59,1.95,male" +:+ nl)))
    by (simpl; do 3 right; left).
  split; [exact H1|]. split; [exact H2|]. split; [exact H3|].
  exact (read_csv_values_clean _ _ _ _ _ H1 H2 H3).
Defined.

(** X7. The records of one read share one class, named [Row]; its field
    names are distinct, each one an identifier that is no keyword and
    starts with no underscore; and every record has one value per name. *)
Theorem read_csv_one_class fname w data :
  read_csv fname w = Ok data ->
  exists Row,
    typename Row = "Row" /\
    NoDup (_fields Row) /\
    Forall (fun name => valid_field_name name = true) (_fields Row) /\
    Forall (fun row => cls row = Row /\ len row = length (_fields Row)) data.
Proof.
  intros (text & Row & _ & HRow & Hfits & ->)%read_csv_inv.
  apply namedtuple_Ok in HRow as (Htn & Hf & _ & Hvalid & Hnd).
  exists Row. rewrite Hf. split; [exact Htn|]. split; [exact Hnd|]. split; [exact Hvalid|].
  apply Forall_fmap. eapply Forall_impl; [exact Hfits|].
  intros line Hl. split; [reflexivity|]. unfold fits in Hl. now rewrite <- Hf.
Qed.

Lemma read_csv_one_class_witness :
  read_csv "trivial_test_example.csv" example_world
    = Ok (map (row_of example_Row) (data_lines contents)) /\
  exists Row,
    typename Row = "Row" /\
    NoDup (_fields Row) /\
    Forall (fun name => valid_field_name name = true) (_fields Row) /\
    Forall (fun row => cls row = Row /\ len row = length (_fields Row))
      (map (row_of example_Row) (data_lines contents)).
Proof.
  assert (H1 : read_csv "trivial_test_example.csv" example_world
               = Ok (map (row_of example_Row) (data_lines contents))) by reflexivity.
  split; [exact H1|]. exact (read_csv_one_class _ _ _ H1).
Defined.

(** X8. Whenever [read_csv] succeeds it returns one record for each line
    of the file after the first: the blank lines too would have to be
    records, none is skipped. *)
Theorem read_csv_record_count fname w text data :
  file_text fname w = Some text ->
  read_csv fname w = Ok data ->
  length data = length (splitlines text) - 1.
Proof.
  intros Ht H. apply read_csv_inv in H as (text' & Row & Ht' & _ & _ & ->).
  rewrite Ht in Ht'. injection Ht' as <-. rewrite length_map.
  destruct text as [|a t]; [reflexivity|].
  rewrite (splitlines_take_line (String a t)) by discriminate.
  unfold data_lines. simpl. lia.
Qed.

Lemma read_csv_record_count_witness :
  file_text "trivial_test_example.csv" example_world = Some contents /\
  read_csv "trivial_test_example.csv" example_world
    = Ok (map (row_of example_Row) (data_lines contents)) /\
  length (map (row_of example_Row) (data_lines contents)) = length (splitlines contents) - 1.
Proof.
  assert (H1 : file_text "trivial_test_example.csv" example_world = Some contents)
    by reflexivity.
  assert (H2 : read_csv "trivial_test_example.csv" example_world
               = Ok (map (row_of example_Row) (data_lines contents))) by reflexivity.
  split; [exact H1|]. split; [exact H2|]. exact (read_csv_record_count _ _ _ _ H1 H2).
Defined.

(** X9. A first line without any name (an empty file, a blank line, or
    nothing but commas, quotes and white space) makes a class without
    fields: [read_csv] then returns the empty list when no line follows,
    and fails on the first line that does, since a line has at least one
    token. *)
Theorem read_csv_no_field_names fname w text :
  file_text fname w = Some text ->
  field_names (header text) = [] ->
  match data_lines text with
  | [] => read_csv fname w = Ok []
  | line :: _ => read_csv fname w = Raise (TypeError 0 (S (count "," line)))
  end.
Proof.
  intros Ht Hnone. rewrite (read_csv_unfold _ _ _ Ht).
  rewrite namedtuple_accepts; rewrite Hnone; [|constructor..].
  cbn [bind]. destruct (data_lines text) as [|line lines]; [reflexivity|].
  cbn [comprehension]. rewrite new_Raise.
  - cbn. now rewrite words_length.
  - rewrite words_length. discriminate.
Qed.

Lemma read_csv_no_field_names_witness :
  file_text "blank.csv" (world_with "blank.csv" no_names_csv) = Some no_names_csv /\
  field_names (header no_names_csv) = [] /\
  read_csv "blank.csv" (world_with "blank.csv" no_names_csv)
  = Raise (TypeError 0 (S (count "," ("1,2" +:+ nl)))).
Proof.
  assert (H1 : file_text "blank.csv" (world_with "blank.csv" no_names_csv)
               = Some no_names_csv) by reflexivity.
  assert (H2 : field_names (header no_names_csv) = []) by reflexivity.
  split; [exact H1|]. split; [exact H2|].
  exact (read_csv_no_field_names _ _ _ H1 H2).
Defined.

(** X10. A blank line among the data lines, such as one more newline at
    the end of the file, is not skipped: unless the header has exactly one
    name, [read_csv] fails with [TypeError]. *)
Theorem read_csv_blank_line fname w text Row :
  file_text fname w = Some text ->
  namedtuple "Row" (header text) = Ok Row ->
  length (_fields Row) <> 1 ->
  nl ∈ data_lines text ->
  exists given, given <> length (_fields Row) /\
    read_csv fname w = Raise (TypeError (length (_fields Row)) given).
Proof.
  intros Ht HRow Hn Hin. rewrite (read_csv_unfold _ _ _ Ht), HRow. cbn [bind].
  apply rows_Raise. apply Exists_exists. exists nl. split; [exact Hin|].
  unfold fits. cbn. congruence.
Qed.

Lemma read_csv_blank_line_witness :
  file_text "blank.csv" (world_with "blank.csv" blank_line_csv) = Some blank_line_csv /\
  namedtuple "Row" (header blank_line_csv) = Ok (class_of ["a"; "b"]) /\
  length (_fields (class_of ["a"; "b"])) <> 1 /\
  nl ∈ data_lines blank_line_csv /\
  exists given, given <> length (_fields (class_of ["a"; "b"])) /\
    read_csv "blank.csv" (world_with "blank.csv" blank_line_csv)
    = Raise (TypeError (length (_fields (class_of ["a"; "b"]))) given).
Proof.
  assert (H1 : file_text "blank.csv" (world_with "blank.csv" blank_line_csv)
               = Some blank_line_csv) by reflexivity.
  assert (H2 : namedtuple "Row" (header blank_line_csv) = Ok (class_of ["a"; "b"]))
    by reflexivity.
  assert (H3 : length (_fields (class_of ["a"; "b"])) <> 1) by (simpl; lia).
  assert (H4 : nl ∈ data_lines blank_line_csv) by (simpl; right; left).
  split; [exact H1|]. split; [exact H2|]. split; [exact H3|]. split; [exact H4|].
  exact (read_csv_blank_line _ _ _ _ H1 H2 H3 H4).
Defined.

(** X11. Line ends do not matter: a file whose lines end with a carriage
    return and a line feed is read as the same file with line feeds
    alone. *)
Theorem read_csv_crlf fname w w' text :
  occurs cr text = false ->
  files w !! fname = Some (write_newlines Windows text) ->
  files w' !! fname = Some text ->
  read_csv fname w = read_csv fname w'.
Proof.
  intros Hcr Hw Hw'.
  assert (Ht : file_text fname w = Some text).
  { unfold file_text. rewrite Hw. cbn. now rewrite universal_newlines_write. }
  assert (Ht' : file_text fname w' = Some text).
  { unfold file_text. rewrite Hw'. cbn. now rewrite universal_newlines_absent. }
  now rewrite (read_csv_unfold _ _ _ Ht), (read_csv_unfold _ _ _ Ht').
Qed.

Lemma read_csv_crlf_witness :
  occurs cr contents = false /\
  files (world_with "dos.csv" (write_newlines Windows contents)) !! "dos.csv"
    = Some (write_newlines Windows contents) /\
  files (world_with "dos.csv" contents) !! "dos.csv" = Some contents /\
  read_csv "dos.csv" (world_with "dos.csv" (write_newlines Windows contents))
  = read_csv "dos.csv" (world_with "dos.csv" contents).
Proof.
  assert (H1 : occurs cr contents = false) by reflexivity.
  assert (H2 : files (world_with "dos.csv" (write_newlines Windows contents)) !! "dos.csv"
               = Some (write_newlines Windows contents)) by reflexivity.
  assert (H3 : files (world_with "dos.csv" contents) !! "dos.csv" = Some contents)
    by reflexivity.
  split; [exact H1|]. split; [exact H2|]. split; [exact H3|].
  exact (read_csv_crlf _ _ _ _ H1 H2 H3).
Defined.

Lemma read_csv_table_witness :
  file_text "towns.csv"
    (world_with "towns.csv" (csv_text ["name"; "town"] [["Fred"; "Leeds"]; ["Ann"; "York"]]))
  = Some (csv_text ["name"; "town"] [["Fred"; "Leeds"]; ["Ann"; "York"]]) /\
  ["name"; "town"] <> [] /\
  Forall (fun name => valid_field_name name = true) ["name"; "town"] /\
  NoDup (nfkc <$> ["name"; "town"]) /\
  Forall (fun entries => length entries = length ["name"; "town"] /\
                         Forall (fun v => plain v = true) entries)
    [["Fred"; "Leeds"]; ["Ann"; "York"]] /\
  read_csv "towns.csv"
    (world_with "towns.csv" (csv_text ["name"; "town"] [["Fred"; "Leeds"]; ["Ann"; "York"]]))
  = Ok (map (fun entries => {| cls := class_of ["name"; "town"]; items := entries |})
          [["Fred"; "Leeds"]; ["Ann"; "York"]]).
Proof.
  assert (H1 : file_text "towns.csv"
      (world_with "towns.csv" (csv_text ["name"; "town"] [["Fred"; "Leeds"]; ["Ann"; "York"]]))
    = Some (csv_text ["name"; "town"] [["Fred"; "Leeds"]; ["Ann"; "York"]]))
    by reflexivity.
  assert (H2 : ["name"; "town"] <> []) by discriminate.
  assert (H3 : Forall (fun name => valid_field_name name = true) ["name"; "town"])
    by (repeat constructor).
  assert (H4 : NoDup (nfkc <$> ["name"; "town"])).
  { apply (bool_decide_unpack _). vm_compute. exact I. }
  assert (H5 : Forall (fun entries => length entries = length ["name"; "town"] /\
                         Forall (fun v => plain v = true) entries)
                 [["Fred"; "Leeds"]; ["Ann"; "York"]])
    by (repeat constructor).
  split; [exact H1|]. split; [exact H2|]. split; [exact H3|]. split; [exact H4|].
  split; [exact H5|].
  exact (read_csv_table _ _ _ _ H1 H2 H3 H4 H5).
Defined.

(** X14. The mean of the demonstration divides by the number of records:
    on a file with an accepted header and no data line [read_csv] returns
    the empty table and [mean_height] of it raises [ZeroDivisionError]. *)
Theorem mean_height_header_only fname w text Row :
  file_text fname w = Some text ->
  namedtuple "Row" (header text) = Ok Row ->
  data_lines text = [] ->
  exists table,
    read_csv fname w = Ok table /\ mean_height table = Raise ZeroDivisionError.
Proof.
  intros Ht HRow Hnone. exists [].
  now rewrite (read_csv_unfold _ _ _ Ht), HRow, Hnone.
Qed.

Lemma mean_height_header_only_witness :
  file_text "header.csv" (world_with "header.csv" header_only_csv) = Some header_only_csv /\
  namedtuple "Row" (header header_only_csv) = Ok (class_of ["a"; "b"]) /\
  data_lines header_only_csv = [] /\
  exists table,
    read_csv "header.csv" (world_with "header.csv" header_only_csv) = Ok table /\
    mean_height table = Raise ZeroDivisionError.
Proof.
  assert (H1 : file_text "header.csv" (world_with "header.csv" header_only_csv)
               = Some header_only_csv) by reflexivity.
  assert (H2 : namedtuple "Row" (header header_only_csv) = Ok (class_of ["a"; "b"]))
    by reflexivity.
  split; [exact H1|]. split; [exact H2|]. split; [reflexivity|].
  exact (mean_height_header_only _ _ _ _ H1 H2 eq_refl).
Defined.

Lemma check_arguments_NoDup seen names :
  check_arguments seen names = Ok tt <->
  NoDup (nfkc <$> names) /\ (forall x, x ∈ nfkc <$> names -> x ∉ seen).
Proof.
  revert seen. induction names as [|name names IH]; intros seen; simpl.
  - split; [|reflexivity]. intros _. split; [constructor|].
    intros x H. inversion H.
  - rewrite NoDup_cons. destruct (mem (nfkc name) seen) eqn:Hm.
    + apply mem_spec in Hm. split; [discriminate|].
      intros (_ & H). destruct (H (nfkc name)); [left | exact Hm].
    + apply mem_false in Hm. rewrite IH. split.
      * intros (Hnd & Hs). split; [split; [|exact Hnd]|].
        -- intros Hin. apply (Hs _ Hin). left.
        -- intros x [->|Hx]%elem_of_cons; [exact Hm|].
           intros Hin. apply (Hs _ Hx). now right.
      * intros ([Hnotin Hnd] & Hs). split; [exact Hnd|].
        intros x Hx [->|Hin]%elem_of_cons; [contradiction|].
        apply (Hs x); [now right | exact Hin].
Qed.

(** X15. Names are compared as the parser of Python normalises them: when
    the names of the header are valid and distinct but two of them are the
    same once normalised (a letter and its ordinal indicator), [read_csv]
    fails with [SyntaxError] while making the class. *)
Theorem read_csv_normalised_names fname w text :
  file_text fname w = Some text ->
  Forall (fun name => valid_field_name name = true) (field_names (header text)) ->
  NoDup (field_names (header text)) ->
  ~ NoDup (nfkc <$> field_names (header text)) ->
  exists name, read_csv fname w = Raise (SyntaxError name).
Proof.
  intros Ht Hvalid Hnd Hdup. rewrite (read_csv_unfold _ _ _ Ht).
  unfold namedtuple. fold (field_names (header text)).
  assert (Hv : forall name, name ∈ field_names (header text) ->
             Str.isidentifier name = true /\ iskeyword name = false /\
             Str.startswith "_" name = false).
  { rewrite Forall_forall in Hvalid. intros name Hn. specialize (Hvalid _ Hn).
    unfold valid_field_name in Hvalid.
    rewrite !andb_true_iff, !negb_true_iff in Hvalid. tauto. }
  assert (E1 : check_names ("Row" :: field_names (header text)) = Ok tt).
  { apply check_names_Ok. constructor; [now split|].
    apply Forall_forall. intros name Hn. destruct (Hv _ Hn) as (? & ? & _). now split. }
  assert (E2 : check_fields [] (field_names (header text)) = Ok tt).
  { apply check_fields_Ok. split; [|split; [exact Hnd|]].
    - apply Forall_forall. intros name Hn. now destruct (Hv _ Hn) as (_ & _ & ?).
    - intros name _ Hin. inversion Hin. }
  rewrite E1, E2. cbn [bind].
  destruct (check_arguments ["_cls"] (field_names (header text))) as [[]|e] eqn:E3.
  - apply check_arguments_NoDup in E3 as [E3 _]. contradiction.
  - apply check_arguments_Raise in E3 as [name ->]. now exists name.
Qed.

Lemma read_csv_normalised_names_witness :
  file_text "ordinal.csv" (world_with "ordinal.csv" indicator_csv) = Some indicator_csv /\
  Forall (fun name => valid_field_name name = true) (field_names (header indicator_csv)) /\
  NoDup (field_names (header indicator_csv)) /\
  ~ NoDup (nfkc <$> field_names (header indicator_csv)) /\
  exists name,
    read_csv "ordinal.csv" (world_with "ordinal.csv" indicator_csv) = Raise (SyntaxError name).
Proof.
  assert (H1 : file_text "ordinal.csv" (world_with "ordinal.csv" indicator_csv)
               = Some indicator_csv) by reflexivity.
  assert (H2 : Forall (fun name => valid_field_name name = true)
                 (field_names (header indicator_csv))) by (repeat constructor).
  assert (H3 : NoDup (field_names (header indicator_csv))).
  { apply (bool_decide_unpack _). vm_compute. exact I. }
  assert (H4 : ~ NoDup (nfkc <$> field_names (header indicator_csv))).
  { intros [Hnotin _]%NoDup_cons. apply Hnotin. simpl. left. }
  split; [exact H1|]. split; [exact H2|]. split; [exact H3|]. split; [exact H4|].
  exact (read_csv_normalised_names _ _ _ H1 H2 H3 H4).
Defined.

End Extras.
